(** * Google search MCP server: rate limiter, argument guards, query
      builder, result formatter and tool dispatcher of [src/index.ts]

    The program is a single TypeScript module.  Its process-wide mutable
    object [requestCount] is threaded explicitly, exceptions are a
    completion type, and what the module reads from outside (the clock,
    the two credentials, the HTTP exchange) is passed in as an
    environment. *)

From Stdlib Require Import ZArith Bool List Ascii Lia.
From Stdlib Require String DecimalString.
From stdpp Require Import base option list gmap strings.

Local Open Scope Z_scope.

(** ** JavaScript values and completions *)

(** The values a JSON payload can put in a field of the argument bag or
    of an upstream item, at the primitive types.  [JsUndefined] is what
    reading an absent property gives.  A [JsNumber n] stands for a number
    of the program when [n] is an integer of magnitude below 2^53
    ([safeInteger]), where [Number.prototype.toString] is the plain
    decimal numeral.  Fractions, larger numbers, arrays and objects are
    values of [JsonValue], and [Json.callToolHandler] is the handler on
    them. *)
Inductive JsValue :=
  | JsUndefined
  | JsNull
  | JsBool (b : bool)
  | JsNumber (n : Z)
  | JsString (s : string).

(** What a [throw] carries: an [Error] instance (only its [message] is
    ever read) or any other value. *)
Inductive Thrown :=
  | ErrorObject (message : string)
  | ThrownValue (v : JsValue).

(** Outcome of running a statement list: normal completion with a value,
    or an abrupt one caused by [throw]. *)
Inductive Completion (A : Type) :=
  | Normal (a : A)
  | Throw (e : Thrown).
Arguments Normal {A} a.
Arguments Throw {A} e.

(** ** Rate limiter *)

Module RATE_LIMIT.
Definition perDay : Z := 100.
Definition perSecond : Z := 5.
End RATE_LIMIT.

(** The object [requestCount]. Counters are small integers and the two
    stamps are milliseconds since the epoch. *)
Record RequestCount := mkRequestCount {
  daily : Z;
  second : Z;
  lastSecondReset : Z;
  lastDayReset : Z
}.

(** The two clock readings one call of [checkRateLimit] makes:
    [Date.now()] and [new Date().setHours(0, 0, 0, 0)], the local
    midnight that began the current day. *)
Record Clock := mkClock {
  Date_now : Z;
  todayStart : Z
}.

(** [requestCount] as the module initialises it at load time. *)
Definition requestCount_init (c : Clock) : RequestCount :=
  {| daily := 0; second := 0;
     lastSecondReset := Date_now c; lastDayReset := todayStart c |}.

(** First [if] of [checkRateLimit]: reset the second counter if it has
    been a second. *)
Definition resetSecond (now : Z) (rc : RequestCount) : RequestCount :=
  if now - lastSecondReset rc >? 1000
  then {| daily := daily rc; second := 0;
          lastSecondReset := now; lastDayReset := lastDayReset rc |}
  else rc.

(** Second [if] of [checkRateLimit]: reset the daily counter if it is a
    new day. *)
Definition resetDay (today : Z) (rc : RequestCount) : RequestCount :=
  if today >? lastDayReset rc
  then {| daily := 0; second := second rc;
          lastSecondReset := lastSecondReset rc; lastDayReset := today |}
  else rc.

Definition resetWindows (c : Clock) (rc : RequestCount) : RequestCount :=
  resetDay (todayStart c) (resetSecond (Date_now c) rc).

Definition rateLimitExceeded : Thrown := ErrorObject "Rate limit exceeded".

Definition checkRateLimit (c : Clock) (rc : RequestCount)
  : Completion unit * RequestCount :=
  let rc := resetWindows c rc in
  if (second rc >=? RATE_LIMIT.perSecond) || (daily rc >=? RATE_LIMIT.perDay)
  then (Throw rateLimitExceeded, rc)
  else (Normal tt,
        {| daily := daily rc + 1; second := second rc + 1;
           lastSecondReset := lastSecondReset rc;
           lastDayReset := lastDayReset rc |}).

(** A sequence of checks, one per clock reading, on the shared counters. *)
Fixpoint checkAll (cs : list Clock) (rc : RequestCount)
  : list (Completion unit) * RequestCount :=
  match cs with
  | [] => ([], rc)
  | c :: cs' =>
      let '(o, rc1) := checkRateLimit c rc in
      let '(os, rc2) := checkAll cs' rc1 in
      (o :: os, rc2)
  end.

Definition isAdmitted (o : Completion unit) : bool :=
  match o with Normal _ => true | Throw _ => false end.

(** Number of admitted checks among the outcomes. *)
Definition admitted (os : list (Completion unit)) : Z :=
  Z.of_nat (length (filter (fun o => isAdmitted o = true) os)).

(** A check falls in the second window of [rc] when the first [if] does
    not fire, and in its day when the second one does not. *)
Definition sameSecond (rc : RequestCount) (c : Clock) : Prop :=
  Date_now c - lastSecondReset rc <= 1000.
Definition sameDay (rc : RequestCount) (c : Clock) : Prop :=
  todayStart c <= lastDayReset rc.

(** The caps hold of the counters. *)
Definition withinCaps (rc : RequestCount) : Prop :=
  0 <= second rc <= RATE_LIMIT.perSecond /\ 0 <= daily rc <= RATE_LIMIT.perDay.

(** The daily counter is below its cap at each check of the sequence,
    once that check has reset its windows. *)
Fixpoint dailyOpen (cs : list Clock) (rc : RequestCount) : Prop :=
  match cs with
  | [] => True
  | c :: cs' =>
      daily (resetWindows c rc) < RATE_LIMIT.perDay /\
      dailyOpen cs' (checkRateLimit c rc).2
  end.

(** ** Strings and coercions of the JavaScript runtime *)

(** The line feed, written [\n] in the source. *)
Definition LF : ascii := "010"%char.
Definition nl : string := String LF "".

(** [Number.prototype.toString()] at an integer of magnitude below 2^53
    ([safeInteger]).  From 10^21 on the runtime prints exponent notation
    ([1e+21]); a number that large is a [JDouble], printed by
    [Double_toString]. *)
Definition Number_toString (n : Z) : string :=
  DecimalString.NilZero.string_of_int (Z.to_int n).

(** [hay.includes(needle)].  Strings are byte strings here and UTF-16 in
    the source; for an ASCII needle the two searches agree. *)
Fixpoint includes (needle hay : string) : bool :=
  String.prefix needle hay ||
  match hay with
  | EmptyString => false
  | String _ rest => includes needle rest
  end.

(** [typeof v === "string"]. *)
Definition typeof_string (v : JsValue) : bool :=
  match v with JsString _ => true | _ => false end.

(** Truthiness, as [if (v)], [v && ...] and [v || ...] test it. *)
Definition ToBoolean (v : JsValue) : bool :=
  match v with
  | JsUndefined | JsNull => false
  | JsBool b => b
  | JsNumber n => negb (n =? 0)
  | JsString s => negb (String.eqb s "")
  end.

(** String conversion, as a template literal and [String(v)] apply it. *)
Definition ToString (v : JsValue) : string :=
  match v with
  | JsUndefined => "undefined"
  | JsNull => "null"
  | JsBool true => "true"
  | JsBool false => "false"
  | JsNumber n => Number_toString n
  | JsString s => s
  end.

(** The engine's [TypeError] for a property read on [undefined] or
    [null] (V8's wording). *)
Definition cannotRead (v prop : string) : Thrown :=
  ErrorObject ("Cannot read properties of " +:+ v +:+ " (reading '" +:+ prop +:+ "')").

(** The method call [v.toString()]: there is no method to call on
    [undefined] and [null]. *)
Definition toString_method (v : JsValue) : Completion string :=
  match v with
  | JsUndefined => Throw (cannotRead "undefined" "toString")
  | JsNull => Throw (cannotRead "null" "toString")
  | _ => Normal (ToString v)
  end.

(** The method call [v.includes("site:")]: only strings have the method. *)
Definition includes_method (v : JsValue) (needle : string) : Completion bool :=
  match v with
  | JsUndefined => Throw (cannotRead "undefined" "includes")
  | JsNull => Throw (cannotRead "null" "includes")
  | JsString s => Normal (includes needle s)
  | _ => Throw (ErrorObject "query.includes is not a function")
  end.

(** What the runtime computes and the model leaves open:
    [Math.min(s, 10).toString()] at a string [s], which goes through the
    numeric-literal grammar and floating point. *)
Class JsRuntime := {
  Math_min_10_ofString : string -> string
}.

(** [Math.min(v, 10).toString()].  [null] and booleans convert to 0 and
    1, [undefined] to [NaN]. *)
Definition Math_min_10_toString `{JsRuntime} (v : JsValue) : string :=
  match v with
  | JsUndefined => "NaN"
  | JsNull => "0"
  | JsBool true => "1"
  | JsBool false => "0"
  | JsNumber n => Number_toString (Z.min n 10)
  | JsString s => Math_min_10_ofString s
  end.

(** A default parameter or destructuring default: it replaces
    [undefined] only. *)
Definition orDefault (v d : JsValue) : JsValue :=
  match v with JsUndefined => d | _ => v end.

(** ** Argument bags and the two type guards *)

(** A value of static type [unknown]: a primitive or an object with
    primitive fields. *)
Inductive Unknown :=
  | Primitive (v : JsValue)
  | Object (fields : gmap string JsValue).

Definition typeof (a : Unknown) : string :=
  match a with
  | Primitive JsUndefined => "undefined"
  | Primitive JsNull => "object"
  | Primitive (JsBool _) => "boolean"
  | Primitive (JsNumber _) => "number"
  | Primitive (JsString _) => "string"
  | Object _ => "object"
  end.

Definition isNull (a : Unknown) : bool :=
  match a with Primitive JsNull => true | _ => false end.

(** [!a]. Every object is truthy. *)
Definition falsy (a : Unknown) : bool :=
  match a with Primitive v => negb (ToBoolean v) | Object _ => false end.

(** [k in a] on an object parsed from JSON (the guards only evaluate it
    on objects). *)
Definition hasProperty (k : string) (a : Unknown) : bool :=
  match a with
  | Object o => bool_decide (is_Some (o !! k))
  | Primitive _ => false
  end.

(** The property read [a.k]; the program reads properties of objects
    only. *)
Definition getProperty (k : string) (a : Unknown) : JsValue :=
  match a with
  | Object o => default JsUndefined (o !! k)
  | Primitive _ => JsUndefined
  end.

Definition isGoogleWebSearchArgs (args : Unknown) : bool :=
  String.eqb (typeof args) "object" &&
  negb (isNull args) &&
  hasProperty "query" args &&
  typeof_string (getProperty "query" args).

Definition isGoogleImageSearchArgs (args : Unknown) : bool :=
  String.eqb (typeof args) "object" &&
  negb (isNull args) &&
  hasProperty "query" args &&
  typeof_string (getProperty "query" args).

(** ** The upstream exchange *)

(** The search parameters set on the request URL
    [https://www.googleapis.com/customsearch/v1]. *)
Record UpstreamParams := mkUpstreamParams {
  key : string;
  cx : string;
  q : string;
  num : string;
  start : string;
  searchType : option string
}.

(** One entry of [data.items]; [None] for [image] is an absent property,
    and of [item.image] only [thumbnailLink] is read. *)
Record Image := mkImage { thumbnailLink : JsValue }.
Record Item := mkItem {
  title : JsValue;
  link : JsValue;
  snippet : JsValue;
  image : option Image
}.

(** [data.error], when it is there. *)
Record ApiError := mkApiError { code : JsValue; message : JsValue }.

(** The parsed body, at the two properties the program reads. *)
Record Payload := mkPayload {
  error : option ApiError;
  items : option (list Item)
}.

(** The response [fetch] resolves to; [body] is what [response.text()]
    gives and [json] the outcome of [response.json()], which throws on a
    malformed body.  A body that parses is taken to be an object. *)
Record Response := mkResponse {
  ok : bool;
  status : Z;
  statusText : string;
  body : string;
  json : Completion Payload
}.

(** What the module reads from its surroundings during one invocation. *)
Record Env := mkEnv {
  clock : Clock;
  GOOGLE_API_KEY : string;
  GOOGLE_CSE_ID : string;
  fetch : UpstreamParams -> Completion Response
}.

(** The state an invocation acts on: the shared counters, and the
    requests sent upstream so far (latest first). *)
Record World := mkWorld {
  requestCount : RequestCount;
  sent : list UpstreamParams
}.

(** ** State and exception monad *)

Definition M (A : Type) : Type := World -> Completion A * World.

Definition ret {A} (a : A) : M A := fun w => (Normal a, w).

Definition throw {A} (e : Thrown) : M A := fun w => (Throw e, w).

Definition bind {A B} (m : M A) (k : A -> M B) : M B :=
  fun w =>
    match m w with
    | (Normal a, w') => k a w'
    | (Throw e, w') => (Throw e, w')
    end.

(** [try { m } catch (error) { h error }] around a body and a handler
    that both return. *)
Definition tryCatch {A} (m : M A) (h : Thrown -> A) : World -> A * World :=
  fun w =>
    match m w with
    | (Normal a, w') => (a, w')
    | (Throw e, w') => (h e, w')
    end.

(** A step that touches no state. *)
Definition lift {A} (c : Completion A) : M A := fun w => (c, w).

Declare Scope js_scope.
Delimit Scope js_scope with js.
Notation "x <- m ;; k" := (bind m (fun x => k))
  (at level 100, m at next level, right associativity) : js_scope.
Notation "m ;;; k" := (bind m (fun _ => k))
  (at level 100, right associativity) : js_scope.

(** [checkRateLimit()] on the counters of the world. *)
Definition checkRateLimitM (env : Env) : M unit :=
  fun w =>
    let '(o, rc) := checkRateLimit (clock env) (requestCount w) in
    (o, {| requestCount := rc; sent := sent w |}).

(** [await fetch(url, ...)]: the request leaves, the surroundings answer. *)
Definition fetchM (env : Env) (p : UpstreamParams) : M Response :=
  fun w =>
    (fetch env p, {| requestCount := requestCount w; sent := p :: sent w |}).

(** ** Search functions *)

(** [a || b]. *)
Definition orElse (a b : JsValue) : JsValue :=
  if ToBoolean a then a else b.

(** The optional chain [item.image?.thumbnailLink]. *)
Definition thumbnailOf (item : Item) : JsValue :=
  match image item with
  | None => JsUndefined
  | Some i => thumbnailLink i
  end.

(** The callback of [data.items.map] in [performWebSearch]. *)
Definition webBlock (index : nat) (item : Item) : string :=
  "[" +:+ Number_toString (Z.of_nat index + 1) +:+ "] Title: " +:+ ToString (title item)
  +:+ nl +:+ "Description: " +:+ ToString (snippet item)
  +:+ nl +:+ "URL: " +:+ ToString (link item).

(** Last line of an image block. *)
Definition thumbnailLine (item : Item) : string :=
  if ToBoolean (thumbnailOf item)
  then "Thumbnail: " +:+ ToString (thumbnailOf item)
  else "".

(** The callback of [data.items.map] in [performImageSearch]. *)
Definition imageBlock (index : nat) (item : Item) : string :=
  "[" +:+ Number_toString (Z.of_nat index + 1) +:+ "] Title: " +:+ ToString (title item)
  +:+ nl +:+ "Description: " +:+ ToString (orElse (snippet item) (JsString "No description"))
  +:+ nl +:+ "Image URL: " +:+ ToString (link item)
  +:+ nl +:+ thumbnailLine item.

(** [items.map(block).join('\n\n')]. *)
Definition formatItems (block : nat -> Item -> string) (its : list Item) : string :=
  String.concat (nl +:+ nl) (imap block its).

(** The tail both search functions share after the response has come:
    the status check, the parse, the embedded error, the empty result
    and the formatting. *)
Definition render (noResults : string) (block : nat -> Item -> string)
    (response : Response) : Completion string :=
  if negb (ok response)
  then Throw (ErrorObject ("Google API error: " +:+ Number_toString (status response)
                           +:+ " " +:+ statusText response +:+ nl +:+ body response))
  else
    match json response with
    | Throw e => Throw e
    | Normal data =>
        match error data with
        | Some e =>
            Throw (ErrorObject ("Google API error: " +:+ ToString (code e)
                                +:+ " " +:+ ToString (message e)))
        | None =>
            match items data with
            | None | Some [] => Normal noResults
            | Some its => Normal (formatItems block its)
            end
        end
    end.

(** ** Tool dispatch: the result shape *)

(** The value a tool call returns, [{content: [{type: "text", text}],
    isError}]. *)
Record ToolResult := mkToolResult {
  text : string;
  isError : bool
}.

(** [error instanceof Error ? error.message : String(error)]. *)
Definition messageOf (error : Thrown) : string :=
  match error with
  | ErrorObject m => m
  | ThrownValue v => ToString v
  end.

(** The [catch] clause of the handler. *)
Definition errorResult (error : Thrown) : ToolResult :=
  {| text := "Error: " +:+ messageOf error; isError := true |}.

Section Search.
Context `{JsRuntime}.
Local Open Scope js_scope.

(** The [if] that decides the query text of a web search; the result is
    what [url.searchParams.set('q', searchQuery)] stores. *)
Definition searchQueryOf (query site : JsValue) : Completion string :=
  if ToBoolean site
  then
    match includes_method query "site:" with
    | Throw e => Throw e
    | Normal found =>
        if negb found
        then Normal (ToString query +:+ " site:" +:+ ToString site)
        else Normal (ToString query)
    end
  else Normal (ToString query).

(** The search parameters a web search and an image search set on the
    request URL, from the query text, the count and the start text. *)
Definition webParams (env : Env) (searchQuery : string) (count : JsValue) (startText : string)
  : UpstreamParams :=
  {| key := GOOGLE_API_KEY env; cx := GOOGLE_CSE_ID env; q := searchQuery;
     num := Math_min_10_toString count; start := startText; searchType := None |}.

Definition imageParams (env : Env) (query count : JsValue) (startText : string)
  : UpstreamParams :=
  {| key := GOOGLE_API_KEY env; cx := GOOGLE_CSE_ID env; q := ToString query;
     num := Math_min_10_toString count; start := startText; searchType := Some "image" |}.

Definition performWebSearch (env : Env) (query count start site : JsValue) : M string :=
  let count := orDefault count (JsNumber 5) in
  let start := orDefault start (JsNumber 1) in
  let site := orDefault site (JsString "") in
  checkRateLimitM env ;;;
  searchQuery <- lift (searchQueryOf query site) ;;
  startText <- lift (toString_method start) ;;
  response <- fetchM env (webParams env searchQuery count startText) ;;
  lift (render "No results found for your query." webBlock response).

Definition performImageSearch (env : Env) (query count start : JsValue) : M string :=
  let count := orDefault count (JsNumber 5) in
  let start := orDefault start (JsNumber 1) in
  checkRateLimitM env ;;;
  startText <- lift (toString_method start) ;;
  response <- fetchM env (imageParams env query count startText) ;;
  lift (render "No image results found for your query." imageBlock response).

(** ** Tool dispatch *)

(** The [try] block of the handler. *)
Definition callToolBody (env : Env) (name : string) (args : Unknown) : M ToolResult :=
  if falsy args then throw (ErrorObject "No arguments provided")
  else if String.eqb name "google_web_search" then
    if negb (isGoogleWebSearchArgs args)
    then throw (ErrorObject "Invalid arguments for google_web_search")
    else
      let query := getProperty "query" args in
      let count := orDefault (getProperty "count" args) (JsNumber 5) in
      let start := orDefault (getProperty "start" args) (JsNumber 1) in
      let site := orDefault (getProperty "site" args) (JsString "") in
      results <- performWebSearch env query count start site ;;
      ret {| text := results; isError := false |}
  else if String.eqb name "google_image_search" then
    if negb (isGoogleImageSearchArgs args)
    then throw (ErrorObject "Invalid arguments for google_image_search")
    else
      let query := getProperty "query" args in
      let count := orDefault (getProperty "count" args) (JsNumber 5) in
      let start := orDefault (getProperty "start" args) (JsNumber 1) in
      results <- performImageSearch env query count start ;;
      ret {| text := results; isError := false |}
  else ret {| text := "Unknown tool: " +:+ name; isError := true |}.

(** The handler registered for [CallToolRequestSchema], on
    [request.params.name] and [request.params.arguments]. *)
Definition callToolHandler (env : Env) (name : string) (args : Unknown)
  : World -> ToolResult * World :=
  tryCatch (callToolBody env name args) errorResult.

End Search.

(** ** The results of a dispatch *)

(** The name is one of the two [case] labels of the handler's switch. *)
Definition knownTool (name : string) : bool :=
  String.eqb name "google_web_search" || String.eqb name "google_image_search".

(** A search outcome as the handler returns it: wrapped when the search
    returned, turned into an error result when it threw. *)
Definition wrap (outcome : Completion string * World) : ToolResult * World :=
  match outcome with
  | (Normal results, w') => ({| text := results; isError := false |}, w')
  | (Throw e, w') => (errorResult e, w')
  end.

(** ** Reading a rendered text *)

(** The text split at line feeds, as [text.split('\n')] gives it. *)
Fixpoint lines (s : string) : list string :=
  match s with
  | EmptyString => [EmptyString]
  | String c rest =>
      if Ascii.eqb c LF then EmptyString :: lines rest
      else match lines rest with
           | l :: ls => String c l :: ls
           | [] => [String c EmptyString]
           end
  end.

(** The string holds no line feed. *)
Fixpoint oneLine (s : string) : bool :=
  match s with
  | EmptyString => true
  | String c rest => negb (Ascii.eqb c LF) && oneLine rest
  end.

(** Every field of the item renders on one line. *)
Definition oneLineItem (item : Item) : Prop :=
  oneLine (ToString (title item)) = true /\
  oneLine (ToString (snippet item)) = true /\
  oneLine (ToString (link item)) = true /\
  oneLine (ToString (thumbnailOf item)) = true.

(** Blocks of lines laid out with one empty line between neighbours. *)
Fixpoint blankSeparated (blocks : list (list string)) : list string :=
  match blocks with
  | [] => []
  | [b] => b
  | b :: rest => b ++ EmptyString :: blankSeparated rest
  end.

(** The lines of a web block and of an image block, as the two
    templates lay them out between their line feeds. *)
Definition titleLine (index : nat) (item : Item) : string :=
  "[" +:+ Number_toString (Z.of_nat index + 1) +:+ "] Title: " +:+ ToString (title item).

Definition webLines (index : nat) (item : Item) : list string :=
  [ titleLine index item;
    "Description: " +:+ ToString (snippet item);
    "URL: " +:+ ToString (link item) ].

Definition imageLines (index : nat) (item : Item) : list string :=
  [ titleLine index item;
    "Description: " +:+ ToString (orElse (snippet item) (JsString "No description"));
    "Image URL: " +:+ ToString (link item);
    thumbnailLine item ].

(** ** Surroundings used in the closed examples *)

(** A runtime for the examples; none of them passes a string where
    [Math.min] reads a number, so its one field is never consulted. *)
Definition exampleRuntime : JsRuntime :=
  {| Math_min_10_ofString := fun _ => "NaN" |}.

(** Two complete items, and an image item that has no [image]
    property. *)
Definition itemA : Item :=
  {| title := JsString "A"; link := JsString "https://a.example";
     snippet := JsString "first";
     image := Some {| thumbnailLink := JsString "https://a.example/t.png" |} |}.
Definition itemB : Item :=
  {| title := JsString "B"; link := JsString "https://b.example";
     snippet := JsString "second";
     image := Some {| thumbnailLink := JsString "https://b.example/t.png" |} |}.
Definition itemNoThumbnail : Item :=
  {| title := JsString "A"; link := JsString "https://a.example";
     snippet := JsString "first"; image := None |}.

(** A successful response whose body parses to the given items. *)
Definition okResponse (its : option (list Item)) : Response :=
  {| ok := true; status := 200; statusText := "OK"; body := "";
     json := Normal {| error := None; items := its |} |}.

(** An upstream that answers every request with that response. *)
Definition answering (its : option (list Item)) (p : UpstreamParams) : Completion Response :=
  Normal (okResponse its).

Definition exampleEnv (c : Clock) (its : option (list Item)) : Env :=
  {| clock := c; GOOGLE_API_KEY := "k"; GOOGLE_CSE_ID := "c"; fetch := answering its |}.

(** An upstream that refuses every request with status 403, and one
    whose connection fails. *)
Definition forbidden (p : UpstreamParams) : Completion Response :=
  Normal {| ok := false; status := 403; statusText := "Forbidden";
            body := "quota"; json := Throw (ErrorObject "Unexpected end of JSON input") |}.

Definition unreachable (p : UpstreamParams) : Completion Response :=
  Throw (ErrorObject "fetch failed").

(** Argument bags: a count of 50 with a start of 0, a blank query, a
    [null] start, and a site restriction. *)
Definition bagOutOfRange : gmap string JsValue :=
  <["count" := JsNumber 50]> (<["start" := JsNumber 0]> {["query" := JsString "foo"]}).
Definition bagBlankQuery : gmap string JsValue :=
  {["query" := JsString "   "]}.
Definition bagNullStart : gmap string JsValue :=
  <["start" := JsNull]> {["query" := JsString "foo"]}.
Definition bagSite : gmap string JsValue :=
  <["site" := JsString "example.com"]> {["query" := JsString "foo"]}.

(** The world right after the module has been loaded at clock [c]. *)
Definition freshWorld (c : Clock) : World :=
  {| requestCount := requestCount_init c; sent := [] |}.

(** [n] clock readings [step] milliseconds apart from [from] on, all in
    the day that began at [today]. *)
Fixpoint ticks (n : nat) (from step today : Z) : list Clock :=
  match n with
  | O => []
  | S n' => {| Date_now := from; todayStart := today |} :: ticks n' (from + step) step today
  end.

(** A day of a hundred checks two seconds apart, starting two seconds
    after midnight. *)
Definition spacedDay : list Clock := ticks 100 2000 2000 0.

(** A day whose last five admitted checks come 100 ms before midnight:
    95 checks two seconds apart, then five at 23:59:59.900. *)
Definition burstBeforeMidnight : list Clock :=
  ticks 95 2000 2000 0 ++ ticks 5 86399900 0 0.

(** ** Tool descriptors and the listing handler *)

(** One entry of [inputSchema.properties]. *)
Module SchemaProperty.
Record t := mk {
  type : string;
  description : string;
  default : option JsValue
}.
End SchemaProperty.

(** The [inputSchema] of a tool; [properties] keeps the order in which
    the object literal lists its keys. *)
Module InputSchema.
Record t := mk {
  type : string;
  properties : list (string * SchemaProperty.t);
  required : list string
}.
End InputSchema.

Module Tool.
Record t := mk {
  name : string;
  description : string;
  inputSchema : InputSchema.t
}.
End Tool.

Definition WEB_SEARCH_TOOL : Tool.t :=
  {| Tool.name := "google_web_search";
     Tool.description :=
       "Performs a web search using the Google Custom Search API, ideal for general queries, news, articles, and online content. " +:+
       "Use this for broad information gathering, recent events, or when you need diverse web sources. " +:+
       "Supports pagination and filtering by site or type. " +:+
       "Maximum 10 results per request, with start index for pagination. ";
     Tool.inputSchema :=
       {| InputSchema.type := "object";
          InputSchema.properties :=
            [ ("query",
               {| SchemaProperty.type := "string";
                  SchemaProperty.description := "Search query";
                  SchemaProperty.default := None |});
              ("count",
               {| SchemaProperty.type := "number";
                  SchemaProperty.description := "Number of results (1-10, default 5)";
                  SchemaProperty.default := Some (JsNumber 5) |});
              ("start",
               {| SchemaProperty.type := "number";
                  SchemaProperty.description := "Pagination start index (default 1)";
                  SchemaProperty.default := Some (JsNumber 1) |});
              ("site",
               {| SchemaProperty.type := "string";
                  SchemaProperty.description :=
                    "Optional: Limit search to specific site (e.g., 'site:example.com')";
                  SchemaProperty.default := Some (JsString "") |}) ];
          InputSchema.required := ["query"] |} |}.

Definition IMAGE_SEARCH_TOOL : Tool.t :=
  {| Tool.name := "google_image_search";
     Tool.description :=
       "Searches for images using Google's Custom Search API. " +:+
       "Best for finding images related to specific terms, concepts, or objects. " +:+
       "Returns image URLs, titles, and thumbnails. " +:+
       "Use this when needing to find relevant images or visual references.";
     Tool.inputSchema :=
       {| InputSchema.type := "object";
          InputSchema.properties :=
            [ ("query",
               {| SchemaProperty.type := "string";
                  SchemaProperty.description := "Image search query";
                  SchemaProperty.default := None |});
              ("count",
               {| SchemaProperty.type := "number";
                  SchemaProperty.description := "Number of results (1-10, default 5)";
                  SchemaProperty.default := Some (JsNumber 5) |});
              ("start",
               {| SchemaProperty.type := "number";
                  SchemaProperty.description := "Pagination start index (default 1)";
                  SchemaProperty.default := Some (JsNumber 1) |}) ];
          InputSchema.required := ["query"] |} |}.

(** The handler registered for [ListToolsRequestSchema]: its [tools]. *)
Definition listToolsHandler : list Tool.t :=
  [WEB_SEARCH_TOOL; IMAGE_SEARCH_TOOL].

(** The bag gives property [k] a value of the type the schema declares
    for it. *)
Definition hasDeclaredType (schema : InputSchema.t) (o : gmap string JsValue)
    (k : string) : Prop :=
  exists v p,
    o !! k = Some v /\
    (k, p) ∈ InputSchema.properties schema /\
    typeof (Primitive v) = SchemaProperty.type p.

(** ** Start-up *)

(** How loading the module ends: with [process.exit(code)] after a line
    on the error stream, or with both credentials bound. *)
Inductive Startup :=
  | Exited (code : Z) (stderr : string)
  | Started (apiKey cseId : string).

(** [process.env.NAME]: [undefined] when the variable is not set. *)
Definition process_env (vars : gmap string string) (k : string) : JsValue :=
  match vars !! k with
  | None => JsUndefined
  | Some s => JsString s
  end.

(** The two checks the module makes on the credentials when it is
    loaded. *)
Definition startup (vars : gmap string string) : Startup :=
  let GOOGLE_API_KEY := process_env vars "GOOGLE_API_KEY" in
  let GOOGLE_CSE_ID := process_env vars "GOOGLE_CSE_ID" in
  if negb (ToBoolean GOOGLE_API_KEY)
  then Exited 1 "Error: GOOGLE_API_KEY environment variable is required"
  else if negb (ToBoolean GOOGLE_CSE_ID)
  then Exited 1 "Error: GOOGLE_CSE_ID environment variable is required"
  else Started (ToString GOOGLE_API_KEY) (ToString GOOGLE_CSE_ID).

(** ** A server at work *)

(** One invocation as the transport delivers it, with the surroundings
    it runs in. *)
Record Call := mkCall {
  call_env : Env;
  call_name : string;
  call_args : Unknown
}.

(** Invocations handled one after the other on the shared state.  (An
    invocation touches the counters before its first [await], so the
    counters see overlapping invocations in some such order.) *)
Fixpoint serve `{JsRuntime} (calls : list Call) (w : World) : list ToolResult * World :=
  match calls with
  | [] => ([], w)
  | c :: rest =>
      let '(r, w1) := callToolHandler (call_env c) (call_name c) (call_args c) w in
      let '(rs, w2) := serve rest w1 in
      (r :: rs, w2)
  end.

(** A process environment with both credentials. *)
Definition exampleVars : gmap string string :=
  <["GOOGLE_API_KEY" := "k"]> {["GOOGLE_CSE_ID" := "c"]}.

(** ** The handler on arbitrary JSON arguments *)

(** The integers a double holds exactly and prints as a plain decimal
    numeral: a [JsNumber n] stands for a number the program can receive
    when [n] is one of them. *)
Definition safeInteger (n : Z) : Prop := - 2 ^ 53 < n < 2 ^ 53.

(** The numbers among the fields an item is rendered from are such
    integers. *)
Definition safeValue (v : JsValue) : Prop :=
  match v with JsNumber n => safeInteger n | _ => True end.

Definition safeItem (item : Item) : Prop :=
  safeValue (title item) /\ safeValue (snippet item) /\ safeValue (link item) /\
  match image item with
  | Some im => safeValue (thumbnailLink im)
  | None => True
  end.

(** Any value [JSON.parse] can deliver: a primitive ([JPrim], its
    numbers the safe integers), a number kept as the JSON literal that
    denotes it ([JDouble]: a fraction, or a magnitude of 2^53 and more),
    an array or an object.  [JPrim JsUndefined] is what reading an
    absent property gives. *)
#[warnings="-register-all"]
Inductive JsonValue :=
  | JPrim (v : JsValue)
  | JDouble (literal : string)
  | JArray (elements : list JsonValue)
  | JObject (fields : gmap string JsonValue).

(** What the runtime computes at the number a literal denotes, left
    open like [Math_min_10_ofString]: its truthiness, [x.toString()]
    and [Math.min(x, 10).toString()]. *)
Class JsDoubles := {
  Double_ToBoolean : string -> bool;
  Double_toString : string -> string;
  Double_min_10_toString : string -> string
}.

(** A primitive bag seen as the JSON value it is. *)
Definition ofUnknown (a : Unknown) : JsonValue :=
  match a with
  | Primitive v => JPrim v
  | Object o => JObject (JPrim <$> o)
  end.

Module Json.

(** The numbers among the value and, through arrays, among its elements
    are safe integers. *)
Fixpoint wellFormed (v : JsonValue) : Prop :=
  match v with
  | JPrim (JsNumber n) => safeInteger n
  | JArray l =>
      (fix all (l : list JsonValue) : Prop :=
         match l with
         | [] => True
         | e :: rest => wellFormed e /\ all rest
         end) l
  | _ => True
  end.

Definition typeof (a : JsonValue) : string :=
  match a with
  | JPrim v => typeof (Primitive v)
  | JDouble _ => "number"
  | JArray _ | JObject _ => "object"
  end.

Definition isNull (a : JsonValue) : bool :=
  match a with JPrim JsNull => true | _ => false end.

(** Truthiness: arrays and objects are truthy. *)
Definition ToBoolean `{JsDoubles} (a : JsonValue) : bool :=
  match a with
  | JPrim v => ToBoolean v
  | JDouble x => Double_ToBoolean x
  | JArray _ | JObject _ => true
  end.

(** [!a]. *)
Definition falsy `{JsDoubles} (a : JsonValue) : bool := negb (ToBoolean a).

(** [k in a], for a key that is neither an index nor [length]. *)
Definition hasProperty (k : string) (a : JsonValue) : bool :=
  match a with
  | JObject o => bool_decide (is_Some (o !! k))
  | _ => false
  end.

(** The property read [a.k], for such a key; the program reads
    properties of the argument object only. *)
Definition getProperty (k : string) (a : JsonValue) : JsonValue :=
  match a with
  | JObject o => default (JPrim JsUndefined) (o !! k)
  | _ => JPrim JsUndefined
  end.

(** [typeof v === "string"]. *)
Definition typeof_string (v : JsonValue) : bool := String.eqb (typeof v) "string".

Definition isGoogleWebSearchArgs (args : JsonValue) : bool :=
  String.eqb (typeof args) "object" &&
  negb (isNull args) &&
  hasProperty "query" args &&
  typeof_string (getProperty "query" args).

Definition isGoogleImageSearchArgs (args : JsonValue) : bool :=
  String.eqb (typeof args) "object" &&
  negb (isNull args) &&
  hasProperty "query" args &&
  typeof_string (getProperty "query" args).

(** A default parameter or destructuring default. *)
Definition orDefault (v d : JsonValue) : JsonValue :=
  match v with JPrim JsUndefined => d | _ => v end.

(** The engine's [TypeError] when neither [toString] nor [valueOf] of an
    object gives a primitive (V8's wording). *)
Definition cannotConvert : Thrown :=
  ErrorObject "Cannot convert object to primitive value".

(** String conversion of a primitive. *)
Definition primitiveToString (p : JsValue) : string := ToString p.

Section Conversions.
Context `{JsRuntime} `{JsDoubles}.

(** String conversion, as a template literal applies it.  An array is
    joined with commas, [null] elements giving the empty text.  An
    object parsed from JSON inherits [toString] from [Object.prototype]
    unless it has a property of that name, whose value, coming from
    JSON, is no function: then the conversion throws. *)
Fixpoint ToString (v : JsonValue) : Completion string :=
  match v with
  | JPrim p => Normal (primitiveToString p)
  | JDouble x => Normal (Double_toString x)
  | JArray l =>
      (fix join (l : list JsonValue) : Completion string :=
         match l with
         | [] => Normal ""
         | e :: rest =>
             match (match e with
                    | JPrim JsUndefined | JPrim JsNull => Normal ""
                    | _ => ToString e
                    end) with
             | Throw t => Throw t
             | Normal a =>
                 match rest with
                 | [] => Normal a
                 | _ :: _ =>
                     match join rest with
                     | Throw t => Throw t
                     | Normal b => Normal (a +:+ "," +:+ b)
                     end
                 end
             end
         end) l
  | JObject o =>
      if bool_decide (is_Some (o !! "toString"))
      then Throw cannotConvert
      else Normal "[object Object]"
  end.

(** The method call [start.toString()]. *)
Definition toString_method (v : JsonValue) : Completion string :=
  match v with
  | JPrim p => toString_method p
  | JObject o =>
      if bool_decide (is_Some (o !! "toString"))
      then Throw (ErrorObject "start.toString is not a function")
      else Normal "[object Object]"
  | _ => ToString v
  end.

(** [Math.min(count, 10).toString()]: an array or object is converted
    to a string first, and that string to a number. *)
Definition Math_min_10_toString (v : JsonValue) : Completion string :=
  match v with
  | JPrim p => Normal (Math_min_10_toString p)
  | JDouble x => Normal (Double_min_10_toString x)
  | _ =>
      match ToString v with
      | Throw t => Throw t
      | Normal s => Normal (Math_min_10_ofString s)
      end
  end.

(** The method call [query.includes("site:")]; an array has the method
    too, and looks for an element equal to the needle. *)
Definition includes_method (v : JsonValue) (needle : string) : Completion bool :=
  match v with
  | JPrim p => includes_method p needle
  | JArray l =>
      Normal (existsb (fun e => match e with
                                | JPrim (JsString s) => String.eqb s needle
                                | _ => false
                                end) l)
  | _ => Throw (ErrorObject "query.includes is not a function")
  end.

(** The query text of a web search. *)
Definition searchQueryOf (query site : JsonValue) : Completion string :=
  if ToBoolean site
  then
    match includes_method query "site:" with
    | Throw t => Throw t
    | Normal found =>
        if negb found
        then
          match ToString query with
          | Throw t => Throw t
          | Normal a =>
              match ToString site with
              | Throw t => Throw t
              | Normal b => Normal (a +:+ " site:" +:+ b)
              end
          end
        else ToString query
    end
  else ToString query.

(** The search parameters of the two requests, in the order in which the
    source sets them. *)
Definition webRequest (env : Env) (query count start site : JsonValue)
  : Completion UpstreamParams :=
  match searchQueryOf query site with
  | Throw t => Throw t
  | Normal searchQuery =>
      match Math_min_10_toString count with
      | Throw t => Throw t
      | Normal numText =>
          match toString_method start with
          | Throw t => Throw t
          | Normal startText =>
              Normal {| key := GOOGLE_API_KEY env; cx := GOOGLE_CSE_ID env;
                        q := searchQuery; num := numText; start := startText;
                        searchType := None |}
          end
      end
  end.

Definition imageRequest (env : Env) (query count start : JsonValue)
  : Completion UpstreamParams :=
  match ToString query with
  | Throw t => Throw t
  | Normal queryText =>
      match Math_min_10_toString count with
      | Throw t => Throw t
      | Normal numText =>
          match toString_method start with
          | Throw t => Throw t
          | Normal startText =>
              Normal {| key := GOOGLE_API_KEY env; cx := GOOGLE_CSE_ID env;
                        q := queryText; num := numText; start := startText;
                        searchType := Some "image" |}
          end
      end
  end.

Definition performWebSearch (env : Env) (query count start site : JsonValue) : M string :=
  let count := orDefault count (JPrim (JsNumber 5)) in
  let start := orDefault start (JPrim (JsNumber 1)) in
  let site := orDefault site (JPrim (JsString "")) in
  bind (checkRateLimitM env) (fun _ =>
  bind (lift (webRequest env query count start site)) (fun p =>
  bind (fetchM env p) (fun response =>
  lift (render "No results found for your query." webBlock response)))).

Definition performImageSearch (env : Env) (query count start : JsonValue) : M string :=
  let count := orDefault count (JPrim (JsNumber 5)) in
  let start := orDefault start (JPrim (JsNumber 1)) in
  bind (checkRateLimitM env) (fun _ =>
  bind (lift (imageRequest env query count start)) (fun p =>
  bind (fetchM env p) (fun response =>
  lift (render "No image results found for your query." imageBlock response)))).

(** The destructuring of the argument object. *)
Definition queryOf (args : JsonValue) : JsonValue := getProperty "query" args.
Definition countOf (args : JsonValue) : JsonValue :=
  orDefault (getProperty "count" args) (JPrim (JsNumber 5)).
Definition startOf (args : JsonValue) : JsonValue :=
  orDefault (getProperty "start" args) (JPrim (JsNumber 1)).
Definition siteOf (args : JsonValue) : JsonValue :=
  orDefault (getProperty "site" args) (JPrim (JsString "")).

(** The [try] block of the handler. *)
Definition callToolBody (env : Env) (name : string) (args : JsonValue) : M ToolResult :=
  if falsy args then throw (ErrorObject "No arguments provided")
  else if String.eqb name "google_web_search" then
    if negb (isGoogleWebSearchArgs args)
    then throw (ErrorObject "Invalid arguments for google_web_search")
    else
      bind (performWebSearch env (queryOf args) (countOf args) (startOf args) (siteOf args))
        (fun results => ret {| text := results; isError := false |})
  else if String.eqb name "google_image_search" then
    if negb (isGoogleImageSearchArgs args)
    then throw (ErrorObject "Invalid arguments for google_image_search")
    else
      bind (performImageSearch env (queryOf args) (countOf args) (startOf args))
        (fun results => ret {| text := results; isError := false |})
  else ret {| text := "Unknown tool: " +:+ name; isError := true |}.

(** The handler registered for [CallToolRequestSchema]. *)
Definition callToolHandler (env : Env) (name : string) (args : JsonValue)
  : World -> ToolResult * World :=
  tryCatch (callToolBody env name args) errorResult.

End Conversions.

(** The conversion of the value to a string does not throw: no object
    with a property named [toString] is the value or, through arrays,
    one of its elements. *)
Fixpoint convertible (v : JsonValue) : bool :=
  match v with
  | JArray l =>
      (fix all (l : list JsonValue) : bool :=
         match l with
         | [] => true
         | e :: rest => convertible e && all rest
         end) l
  | JObject o => negb (bool_decide (is_Some (o !! "toString")))
  | _ => true
  end.

(** [start.toString()] does not throw: the value is not [null] (and not
    [undefined]), and converts. *)
Definition callable_toString (v : JsonValue) : bool :=
  match v with
  | JPrim JsUndefined | JPrim JsNull => false
  | _ => convertible v
  end.

(** The value is a number: a safe integer, or one kept as its literal. *)
Definition isNumber (v : JsonValue) : Prop :=
  match v with
  | JPrim (JsNumber n) => safeInteger n
  | JDouble _ => True
  | _ => False
  end.

(** The arguments of a search can be written into a request: [count]
    converts, [start.toString()] can be called and, in a web search
    that appends the site (a truthy [site], a query without [site:]),
    [site] converts. *)
Definition sendableImage (count start : JsonValue) : bool :=
  convertible count && callable_toString start.

Definition sendableWeb `{JsDoubles} (query : string) (count start site : JsonValue)
  : bool :=
  (negb (ToBoolean site) || includes "site:" query || convertible site) &&
  convertible count && callable_toString start.

End Json.

(** The step returned rather than threw. *)
Definition returned {A} (c : Completion A) : bool :=
  match c with Normal _ => true | Throw _ => false end.

(** Surroundings of the closed examples on JSON arguments; the answers
    are those of the runtime at the one literal the examples use, 2.5. *)
Definition exampleDoubles : JsDoubles :=
  {| Double_ToBoolean := fun _ => true;
     Double_toString := fun x => x; Double_min_10_toString := fun x => x |}.

(** Bags with a fraction for [count], with an object that has a
    [toString] property for [start], with an array for [start], and
    with a count of 50 and a start of 0. *)
Definition bagFraction : gmap string JsonValue :=
  <["count" := JDouble "2.5"]> {["query" := JPrim (JsString "foo")]}.
Definition bagToStringObject : gmap string JsonValue :=
  <["start" := JObject {["toString" := JPrim (JsNumber 1)]}]>
    {["query" := JPrim (JsString "foo")]}.
Definition bagArrayStart : gmap string JsonValue :=
  <["start" := JArray [JPrim (JsNumber 1); JPrim (JsNumber 2)]]>
    {["query" := JPrim (JsString "foo")]}.
Definition bagIntegers : gmap string JsonValue :=
  <["count" := JPrim (JsNumber 50)]>
    (<["start" := JPrim (JsNumber 0)]> {["query" := JPrim (JsString "foo")]}).

(** * Properties *)

(** ** Rate limiter *)

Lemma resetSecond_cases now rc :
  (now - lastSecondReset rc > 1000 /\
   resetSecond now rc =
     {| daily := daily rc; second := 0;
        lastSecondReset := now; lastDayReset := lastDayReset rc |}) \/
  (now - lastSecondReset rc <= 1000 /\ resetSecond now rc = rc).
Proof.
  unfold resetSecond.
  destruct (Z.gtb_spec (now - lastSecondReset rc) 1000); [left | right]; split; (lia || reflexivity).
Qed.

Lemma resetDay_cases today rc :
  (today > lastDayReset rc /\
   resetDay today rc =
     {| daily := 0; second := second rc;
        lastSecondReset := lastSecondReset rc; lastDayReset := today |}) \/
  (today <= lastDayReset rc /\ resetDay today rc = rc).
Proof.
  unfold resetDay.
  destruct (Z.gtb_spec today (lastDayReset rc)); [left | right]; split; (lia || reflexivity).
Qed.

(** Case analysis on the two window resets of a check. *)
Ltac case_reset lemma n rc :=
  let Hcase := fresh "Hcase" in
  let Heq := fresh "Heq" in
  destruct (lemma n rc) as [[Hcase Heq]|[Hcase Heq]];
  rewrite Heq in *; clear Heq.

Ltac cases_windows :=
  unfold resetWindows, sameSecond, sameDay, withinCaps in *;
  repeat match goal with
         | |- context [resetSecond ?n ?rc] => case_reset resetSecond_cases n rc
         | H : context [resetSecond ?n ?rc] |- _ => case_reset resetSecond_cases n rc
         | |- context [resetDay ?n ?rc] => case_reset resetDay_cases n rc
         | H : context [resetDay ?n ?rc] |- _ => case_reset resetDay_cases n rc
         end;
  cbn [daily second lastSecondReset lastDayReset] in *.

Lemma checkRateLimit_admits c rc :
  second (resetWindows c rc) < RATE_LIMIT.perSecond ->
  daily (resetWindows c rc) < RATE_LIMIT.perDay ->
  checkRateLimit c rc =
    (Normal tt,
     {| daily := daily (resetWindows c rc) + 1;
        second := second (resetWindows c rc) + 1;
        lastSecondReset := lastSecondReset (resetWindows c rc);
        lastDayReset := lastDayReset (resetWindows c rc) |}).
Proof.
  intros Hs Hd. unfold checkRateLimit.
  destruct (Z.geb_spec (second (resetWindows c rc)) RATE_LIMIT.perSecond); [lia|].
  destruct (Z.geb_spec (daily (resetWindows c rc)) RATE_LIMIT.perDay); [lia|].
  reflexivity.
Qed.

Lemma checkRateLimit_rejects c rc :
  RATE_LIMIT.perSecond <= second (resetWindows c rc) \/
  RATE_LIMIT.perDay <= daily (resetWindows c rc) ->
  checkRateLimit c rc = (Throw rateLimitExceeded, resetWindows c rc).
Proof.
  intros Hor. unfold checkRateLimit.
  destruct (Z.geb_spec (second (resetWindows c rc)) RATE_LIMIT.perSecond);
    destruct (Z.geb_spec (daily (resetWindows c rc)) RATE_LIMIT.perDay);
    simpl; try reflexivity; lia.
Qed.

(** The outcome of a check is decided by the two counters after the
    windows have been reset. *)
Lemma checkRateLimit_admits_iff c rc :
  (checkRateLimit c rc).1 = Normal tt <->
  second (resetWindows c rc) < RATE_LIMIT.perSecond /\
  daily (resetWindows c rc) < RATE_LIMIT.perDay.
Proof.
  split.
  - intros Hok.
    destruct (Z.lt_ge_cases (second (resetWindows c rc)) RATE_LIMIT.perSecond) as [Hs|Hs];
      destruct (Z.lt_ge_cases (daily (resetWindows c rc)) RATE_LIMIT.perDay) as [Hd|Hd];
      try (split; assumption);
      rewrite checkRateLimit_rejects in Hok by lia; discriminate.
  - intros [Hs Hd]. by rewrite checkRateLimit_admits.
Qed.

Lemma resetWindows_sameSecond c rc :
  sameSecond rc c ->
  second (resetWindows c rc) = second rc /\
  lastSecondReset (resetWindows c rc) = lastSecondReset rc.
Proof. intros Hc. cases_windows; lia. Qed.

Lemma resetWindows_sameDay c rc :
  sameDay rc c ->
  daily (resetWindows c rc) = daily rc /\
  lastDayReset (resetWindows c rc) = lastDayReset rc.
Proof. intros Hc. cases_windows; lia. Qed.

Lemma sameSecond_stamp rc rc' c :
  lastSecondReset rc' = lastSecondReset rc -> sameSecond rc c -> sameSecond rc' c.
Proof. unfold sameSecond. intros ->. done. Qed.

Lemma sameDay_stamp rc rc' c :
  lastDayReset rc' = lastDayReset rc -> sameDay rc c -> sameDay rc' c.
Proof. unfold sameDay. intros ->. done. Qed.

(** While the window lasts and neither cap is reached, every check is
    admitted and counted, and the window start stays put. *)
Lemma checkAll_within_window cs : forall rc,
  Forall (sameSecond rc) cs ->
  second rc + Z.of_nat (length cs) <= RATE_LIMIT.perSecond ->
  dailyOpen cs rc ->
  (checkAll cs rc).1 = repeat (Normal tt) (length cs) /\
  second (checkAll cs rc).2 = second rc + Z.of_nat (length cs) /\
  lastSecondReset (checkAll cs rc).2 = lastSecondReset rc.
Proof.
  induction cs as [|c cs IH]; intros rc Hwin Hcap Hday.
  - simpl. repeat split; lia.
  - apply Forall_cons in Hwin as [Hc Hcs].
    destruct Hday as [Hd Hday].
    destruct (resetWindows_sameSecond c rc Hc) as [Hsec Hstamp].
    cbn [checkAll length repeat] in *. rewrite Nat2Z.inj_succ in Hcap.
    rewrite checkRateLimit_admits in * by lia.
    set (rc1 := mkRequestCount _ _ _ _) in *.
    destruct (IH rc1) as (Hout & Hsecond & Hlast).
    + eapply Forall_impl; [exact Hcs|]. intros c'. apply sameSecond_stamp.
      simpl. exact Hstamp.
    + subst rc1. cbn [second]. lia.
    + exact Hday.
    + destruct (checkAll cs rc1) as [os rc2]. subst rc1.
      cbn [fst snd second lastSecondReset] in *.
      repeat split; [by rewrite Hout | lia | congruence].
Qed.

Lemma checkAll_app cs1 cs2 rc :
  checkAll (cs1 ++ cs2) rc =
    ((checkAll cs1 rc).1 ++ (checkAll cs2 (checkAll cs1 rc).2).1,
     (checkAll cs2 (checkAll cs1 rc).2).2).
Proof.
  revert rc. induction cs1 as [|c cs1 IH]; intros rc; simpl.
  - by destruct (checkAll cs2 rc).
  - destruct (checkRateLimit c rc) as [o rc1]. rewrite IH.
    destruct (checkAll cs1 rc1) as [os rc2]. simpl.
    by destruct (checkAll cs2 rc2).
Qed.

Lemma dailyOpen_app cs1 cs2 rc :
  dailyOpen (cs1 ++ cs2) rc <->
  dailyOpen cs1 rc /\ dailyOpen cs2 (checkAll cs1 rc).2.
Proof.
  revert rc. induction cs1 as [|c cs1 IH]; intros rc; simpl.
  - tauto.
  - rewrite IH. destruct (checkRateLimit c rc) as [o rc1]. simpl.
    destruct (checkAll cs1 rc1) as [os rc2]. simpl. tauto.
Qed.

(** A smaller daily count with room for the whole sequence keeps the
    daily counter below its cap throughout. *)
Lemma dailyOpen_room cs : forall rc,
  Z.max 0 (daily rc) + Z.of_nat (length cs) <= RATE_LIMIT.perDay ->
  dailyOpen cs rc.
Proof.
  induction cs as [|c cs IH]; intros rc Hroom; [exact I|].
  simpl in Hroom. split.
  - cases_windows; unfold RATE_LIMIT.perDay in *; lia.
  - apply IH. destruct (Z.lt_ge_cases (second (resetWindows c rc)) RATE_LIMIT.perSecond).
    + rewrite checkRateLimit_admits; cbn [snd daily]; [| lia |];
        cases_windows; unfold RATE_LIMIT.perDay in *; lia.
    + rewrite checkRateLimit_rejects by lia. cbn [snd].
      cases_windows; unfold RATE_LIMIT.perDay in *; lia.
Qed.

(** C1.  Take a sequence of checks that falls in one second window:
    its first check finds the window fresh (the second counter is 0
    once that check has reset it, because the check opens the window or
    nothing was admitted in it yet), the others come at most 1000 ms
    after the window start, and the daily counter is below its cap at
    every check.  Then the first [perSecond] = 5 checks are admitted,
    the next one in the same window fails with the rate-limit error, and
    a check more than 1000 ms after the window start resets the second
    counter, moves the window start to its own time, and is admitted. *)
Theorem checkRateLimit_second_window (rc : RequestCount)
    (first : Clock) (rest : list Clock) (extra later : Clock) :
  second (resetSecond (Date_now first) rc) = 0 ->
  length (first :: rest) = Z.to_nat RATE_LIMIT.perSecond ->
  Forall (sameSecond (resetSecond (Date_now first) rc)) rest ->
  sameSecond (resetSecond (Date_now first) rc) extra ->
  Date_now later - lastSecondReset (resetSecond (Date_now first) rc) > 1000 ->
  dailyOpen (first :: rest ++ [extra; later]) rc ->
  (checkAll (first :: rest) rc).1 = repeat (Normal tt) (Z.to_nat RATE_LIMIT.perSecond) /\
  (checkRateLimit extra (checkAll (first :: rest) rc).2).1 = Throw rateLimitExceeded /\
  (checkRateLimit later (checkRateLimit extra (checkAll (first :: rest) rc).2).2).1
    = Normal tt /\
  second (checkRateLimit later (checkRateLimit extra (checkAll (first :: rest) rc).2).2).2
    = 1 /\
  lastSecondReset
    (checkRateLimit later (checkRateLimit extra (checkAll (first :: rest) rc).2).2).2
    = Date_now later.
Proof.
  intros Hfresh Hlen Hrest Hextra Hlater Hday.
  set (W := lastSecondReset (resetSecond (Date_now first) rc)) in *.
  assert (Hopen : second (resetWindows first rc) = 0 /\
                  lastSecondReset (resetWindows first rc) = W).
  { subst W. revert Hfresh. clear. intros Hfresh. cases_windows; done. }
  destruct Hopen as [Hzero HW].
  destruct Hday as [Hd1 Hday].
  assert (Hfirst : checkRateLimit first rc =
            (Normal tt,
             {| daily := daily (resetWindows first rc) + 1;
                second := second (resetWindows first rc) + 1;
                lastSecondReset := lastSecondReset (resetWindows first rc);
                lastDayReset := lastDayReset (resetWindows first rc) |})).
  { apply checkRateLimit_admits; [rewrite Hzero; unfold RATE_LIMIT.perSecond; lia | exact Hd1]. }
  cbn [checkAll]. rewrite Hfirst in *. cbn [snd] in Hday.
  set (rc1 := mkRequestCount _ _ _ _) in *.
  assert (Hstamp1 : lastSecondReset rc1 = W) by exact HW.
  assert (Hsec1 : second rc1 = 1) by (subst rc1; cbn [second]; lia).
  apply dailyOpen_app in Hday as [Hday1 Hday2].
  simpl in Hlen.
  destruct (checkAll_within_window rest rc1) as (Hout & Hsec & Hstamp).
  { eapply Forall_impl; [exact Hrest|]. intros c. apply sameSecond_stamp.
    by rewrite Hstamp1. }
  { rewrite Hsec1. unfold RATE_LIMIT.perSecond in *. lia. }
  { exact Hday1. }
  destruct (checkAll rest rc1) as [os rc5] eqn:Hrun. cbn [fst snd] in *.
  assert (Hfive : Z.to_nat RATE_LIMIT.perSecond = S (length rest)) by lia.
  rewrite Hfive. cbn [repeat]. rewrite Hout.
  destruct Hday2 as [_ [Hopen _]].
  assert (Hrej : checkRateLimit extra rc5 = (Throw rateLimitExceeded, resetWindows extra rc5)).
  { apply checkRateLimit_rejects. left.
    destruct (resetWindows_sameSecond extra rc5) as [-> _].
    - eapply sameSecond_stamp; [|exact Hextra]. subst W. congruence.
    - unfold RATE_LIMIT.perSecond in *. lia. }
  rewrite Hrej in *. cbn [fst snd] in *.
  assert (Hsix : lastSecondReset (resetWindows extra rc5) = W).
  { destruct (resetWindows_sameSecond extra rc5) as [_ ->].
    - eapply sameSecond_stamp; [|exact Hextra]. subst W. congruence.
    - congruence. }
  set (rc6 := resetWindows extra rc5) in *.
  assert (Hreset : second (resetWindows later rc6) = 0 /\
                   lastSecondReset (resetWindows later rc6) = Date_now later).
  { clearbody rc6. revert Hsix Hlater. clear. intros Hsix Hlater.
    cases_windows; lia. }
  destruct Hreset as [Hnil Hnow].
  rewrite checkRateLimit_admits by (rewrite ?Hnil; unfold RATE_LIMIT.perSecond; lia).
  cbn [fst snd second lastSecondReset].
  repeat split; [lia | exact Hnow].
Qed.

(** The window theorem at a burst that opens its own window five
    seconds after start-up: five checks 100 ms apart, a sixth 900 ms in,
    a seventh 1.1 s after the first. *)
Lemma checkRateLimit_second_window_witness :
  (checkAll (ticks 5 5000 100 0) (requestCount_init (mkClock 0 0))).1
    = repeat (Normal tt) 5 /\
  (checkRateLimit (mkClock 5900 0)
     (checkAll (ticks 5 5000 100 0) (requestCount_init (mkClock 0 0))).2).1
    = Throw rateLimitExceeded /\
  (checkRateLimit (mkClock 6100 0)
     (checkRateLimit (mkClock 5900 0)
        (checkAll (ticks 5 5000 100 0) (requestCount_init (mkClock 0 0))).2).2).1
    = Normal tt.
Proof.
  pose proof (checkRateLimit_second_window (requestCount_init (mkClock 0 0))
                (mkClock 5000 0) (ticks 4 5100 100 0)
                (mkClock 5900 0) (mkClock 6100 0)) as Hthm.
  destruct Hthm as (H1 & H2 & H3 & _).
  - reflexivity.
  - reflexivity.
  - repeat constructor; unfold sameSecond; simpl; lia.
  - unfold sameSecond; simpl; lia.
  - simpl; lia.
  - vm_compute. repeat split; reflexivity.
  - exact (conj H1 (conj H2 H3)).
Defined.

(** The same at start-up, where the window is the one the module opened
    when it was loaded. *)
Example checkRateLimit_burst_at_startup :
  (checkAll (ticks 6 100 100 0) (requestCount_init (mkClock 0 0))).1
    = repeat (Normal tt) 5 ++ [Throw rateLimitExceeded].
Proof. vm_compute. reflexivity. Qed.

(** Within one day the daily counter counts the admitted checks. *)
Lemma checkAll_daily_count cs : forall rc,
  Forall (sameDay rc) cs ->
  daily (checkAll cs rc).2 = daily rc + admitted (checkAll cs rc).1 /\
  lastDayReset (checkAll cs rc).2 = lastDayReset rc.
Proof.
  induction cs as [|c cs IH]; intros rc Hday.
  - unfold admitted. simpl. split; [lia | done].
  - apply Forall_cons in Hday as [Hc Hcs].
    destruct (resetWindows_sameDay c rc Hc) as [Hd Hstamp].
    cbn [checkAll].
    destruct (Z.lt_ge_cases (second (resetWindows c rc)) RATE_LIMIT.perSecond) as [Hs|Hs];
      [destruct (Z.lt_ge_cases (daily (resetWindows c rc)) RATE_LIMIT.perDay) as [Hc'|Hc'] |].
    1: rewrite checkRateLimit_admits by assumption.
    2,3: rewrite checkRateLimit_rejects by lia.
    all: match goal with |- context [checkAll _ ?r] => set (rc1 := r) in * end;
      destruct (IH rc1) as [Hcount Hlast];
      [ eapply Forall_impl; [exact Hcs|]; intros c'; apply sameDay_stamp;
        subst rc1; cbn [lastDayReset]; congruence
      | destruct (checkAll cs rc1) as [os rc2]; subst rc1;
        cbn [fst snd daily lastDayReset] in *;
        unfold admitted in *; rewrite ?filter_cons_True, ?filter_cons_False by (simpl; congruence);
        cbn [length] in *; split; [lia | congruence] ].
Qed.

(** C2, as the code has it.  Within one calendar day the daily counter
    counts the admitted checks; once [perDay] = 100 have been admitted
    since the day began, the next check of that day fails with the
    rate-limit error whatever the second window holds, and increments
    nothing.  A check whose start of day is strictly later than the
    stored one resets the daily counter to 0 and moves the day start
    forward; it is admitted exactly when the second counter, after its
    own reset, is below the per-second cap. *)
Theorem checkRateLimit_day_window (rc : RequestCount) (cs : list Clock)
    (next : Clock) (rc' : RequestCount) (later : Clock) :
  daily rc = 0 ->
  Forall (sameDay rc) cs ->
  admitted (checkAll cs rc).1 = RATE_LIMIT.perDay ->
  sameDay rc next ->
  todayStart later > lastDayReset rc' ->
  (daily (checkAll cs rc).2 = RATE_LIMIT.perDay /\
   checkRateLimit next (checkAll cs rc).2
     = (Throw rateLimitExceeded, resetWindows next (checkAll cs rc).2) /\
   daily (resetWindows next (checkAll cs rc).2) = RATE_LIMIT.perDay) /\
  (daily (resetWindows later rc') = 0 /\
   lastDayReset (resetWindows later rc') = todayStart later /\
   ((checkRateLimit later rc').1 = Normal tt <->
    second (resetSecond (Date_now later) rc') < RATE_LIMIT.perSecond) /\
   ((checkRateLimit later rc').1 = Normal tt -> daily (checkRateLimit later rc').2 = 1)).
Proof.
  intros Hzero Hday Hfull Hnext Hlater.
  destruct (checkAll_daily_count cs rc Hday) as [Hcount Hstamp].
  rewrite Hzero, Hfull in Hcount. simpl in Hcount.
  assert (Hsame : daily (resetWindows next (checkAll cs rc).2) = RATE_LIMIT.perDay).
  { destruct (resetWindows_sameDay next (checkAll cs rc).2) as [-> _];
      [eapply sameDay_stamp; eauto | exact Hcount]. }
  split; [repeat split; [exact Hcount | | exact Hsame] |].
  - apply checkRateLimit_rejects. right. lia.
  - assert (Hreset : daily (resetWindows later rc') = 0 /\
                     lastDayReset (resetWindows later rc') = todayStart later /\
                     second (resetWindows later rc') = second (resetSecond (Date_now later) rc')).
    { cases_windows; repeat split; lia. }
    destruct Hreset as (Hd & Hl & Hs).
    repeat split; try assumption.
    + intros Hok. apply checkRateLimit_admits_iff in Hok. lia.
    + intros Hok. apply checkRateLimit_admits_iff. rewrite Hd, Hs.
      unfold RATE_LIMIT.perDay. lia.
    + intros Hok. apply checkRateLimit_admits_iff in Hok as [Ha Hb].
      rewrite checkRateLimit_admits by assumption. cbn [snd daily]. lia.
Qed.

(** The day theorem at that day: the 101st check is refused, and a check
    after the next midnight is admitted. *)
Lemma checkRateLimit_day_window_witness :
  (checkRateLimit (mkClock 300000 0)
     (checkAll spacedDay (requestCount_init (mkClock 0 0))).2).1
    = Throw rateLimitExceeded /\
  (checkRateLimit (mkClock 86400500 86400000)
     (checkAll spacedDay (requestCount_init (mkClock 0 0))).2).1
    = Normal tt.
Proof.
  pose proof (checkRateLimit_day_window (requestCount_init (mkClock 0 0)) spacedDay
                (mkClock 300000 0)
                (checkAll spacedDay (requestCount_init (mkClock 0 0))).2
                (mkClock 86400500 86400000)) as Hthm.
  destruct Hthm as [(_ & Hrej & _) (_ & _ & Hiff & _)].
  - reflexivity.
  - apply Forall_forall. intros c Hc. unfold sameDay. simpl.
    assert (Hall : forall n a s c', In c' (ticks n a s 0) -> todayStart c' <= 0).
    { clear. induction n as [|n IH]; intros a s c' Hin; [destruct Hin|].
      destruct Hin as [<- | Hin]; [simpl; lia | eapply IH; exact Hin]. }
    eapply Hall. apply list_elem_of_In. exact Hc.
  - vm_compute. reflexivity.
  - unfold sameDay. simpl. lia.
  - vm_compute. reflexivity.
  - split; [by rewrite Hrej | apply Hiff; vm_compute; reflexivity].
Defined.

(** C2 as stated fails: after a hundred admitted checks, the daily
    counter is reset by a check 200 ms later, past midnight, and yet
    that check is refused, the second window still being full. *)
Lemma checkRateLimit_day_rollover_refused :
  admitted (checkAll burstBeforeMidnight (requestCount_init (mkClock 0 0))).1
    = RATE_LIMIT.perDay /\
  todayStart (mkClock 86400100 86400000)
    > lastDayReset (checkAll burstBeforeMidnight (requestCount_init (mkClock 0 0))).2 /\
  checkRateLimit (mkClock 86400100 86400000)
    (checkAll burstBeforeMidnight (requestCount_init (mkClock 0 0))).2
    = (Throw rateLimitExceeded,
       {| daily := 0; second := 5;
          lastSecondReset := 86399900; lastDayReset := 86400000 |}).
Proof. vm_compute. repeat split; reflexivity. Qed.

(** The caps hold when the module is loaded and after any sequence of
    checks. *)
Lemma withinCaps_init c : withinCaps (requestCount_init c).
Proof. unfold withinCaps, RATE_LIMIT.perSecond, RATE_LIMIT.perDay. simpl. lia. Qed.

(** C3.  Every check keeps both counters within their caps (so they are
    within them whenever a call is admitted), and moves neither window
    start backward, whatever the clock reads.  A refused check leaves
    the counters as the window resets left them, so none is incremented;
    an admitted one adds one to each of them. *)
Theorem checkRateLimit_invariant (c : Clock) (rc : RequestCount) :
  withinCaps rc ->
  withinCaps (checkRateLimit c rc).2 /\
  lastSecondReset rc <= lastSecondReset (checkRateLimit c rc).2 /\
  lastDayReset rc <= lastDayReset (checkRateLimit c rc).2 /\
  ((checkRateLimit c rc).1 = Throw rateLimitExceeded /\
   (checkRateLimit c rc).2 = resetWindows c rc /\
   second (checkRateLimit c rc).2 <= second rc /\
   daily (checkRateLimit c rc).2 <= daily rc
   \/
   (checkRateLimit c rc).1 = Normal tt /\
   second (checkRateLimit c rc).2 = second (resetWindows c rc) + 1 /\
   daily (checkRateLimit c rc).2 = daily (resetWindows c rc) + 1).
Proof.
  intros Hcaps.
  assert (Hwin : withinCaps (resetWindows c rc) /\
                 lastSecondReset rc <= lastSecondReset (resetWindows c rc) /\
                 lastDayReset rc <= lastDayReset (resetWindows c rc) /\
                 second (resetWindows c rc) <= second rc /\
                 daily (resetWindows c rc) <= daily rc).
  { cases_windows; unfold RATE_LIMIT.perSecond, RATE_LIMIT.perDay in *; lia. }
  destruct Hwin as (Hcaps' & Hsec & Hday & Hs & Hd).
  destruct (Z.lt_ge_cases (second (resetWindows c rc)) RATE_LIMIT.perSecond) as [Hlt|Hge];
    [destruct (Z.lt_ge_cases (daily (resetWindows c rc)) RATE_LIMIT.perDay) as [Hlt'|Hge'] |].
  1: rewrite checkRateLimit_admits by assumption.
  2,3: rewrite checkRateLimit_rejects by lia.
  all: cbn [fst snd]; unfold withinCaps in *;
    cbn [daily second lastSecondReset lastDayReset];
    repeat split; try lia.
  - right. repeat split; reflexivity.
  - left. repeat split; (reflexivity || lia).
  - left. repeat split; (reflexivity || lia).
Qed.

Lemma checkRateLimit_withinCaps c rc :
  withinCaps rc -> withinCaps (checkRateLimit c rc).2.
Proof.
  intros Hcaps.
  assert (Hwin : withinCaps (resetWindows c rc)).
  { cases_windows; unfold RATE_LIMIT.perSecond, RATE_LIMIT.perDay in *; lia. }
  destruct (Z.lt_ge_cases (second (resetWindows c rc)) RATE_LIMIT.perSecond) as [Hlt|Hge];
    [destruct (Z.lt_ge_cases (daily (resetWindows c rc)) RATE_LIMIT.perDay) as [Hlt'|Hge'] |].
  1: rewrite checkRateLimit_admits by assumption.
  2,3: by rewrite checkRateLimit_rejects by lia.
  unfold withinCaps in *. cbn [snd daily second]. lia.
Qed.

Lemma checkAll_withinCaps cs : forall rc,
  withinCaps rc -> withinCaps (checkAll cs rc).2.
Proof.
  induction cs as [|c cs IH]; intros rc Hcaps; [exact Hcaps|].
  cbn [checkAll].
  pose proof (checkRateLimit_withinCaps c rc Hcaps) as Hstep.
  destruct (checkRateLimit c rc) as [o rc1]. specialize (IH rc1 Hstep).
  by destruct (checkAll cs rc1).
Qed.

(** The invariant at the sixth check of a burst made at start-up, which
    is refused with the second counter at its cap. *)
Lemma checkRateLimit_invariant_witness :
  withinCaps
    (checkRateLimit (mkClock 600 0)
       (checkAll (ticks 5 100 100 0) (requestCount_init (mkClock 0 0))).2).2.
Proof.
  refine (proj1 (checkRateLimit_invariant (mkClock 600 0)
                   (checkAll (ticks 5 100 100 0) (requestCount_init (mkClock 0 0))).2 _)).
  unfold withinCaps. vm_compute. repeat split; discriminate.
Defined.

(** ** Result formatter *)

#[local] Arguments String.append !s1 s2 : simpl nomatch.

Lemma append_assoc (a b c : string) : (a +:+ b) +:+ c = a +:+ (b +:+ c).
Proof. induction a as [|x a IH]; simpl; [done | by f_equal]. Qed.

Lemma oneLine_append (a b : string) : oneLine (a +:+ b) = oneLine a && oneLine b.
Proof.
  induction a as [|x a IH]; simpl; [done|].
  rewrite IH. by rewrite andb_assoc.
Qed.

Lemma oneLine_uint (d : Decimal.uint) :
  oneLine (DecimalString.NilEmpty.string_of_uint d) = true.
Proof. induction d; simpl; (reflexivity || assumption). Qed.

Lemma oneLine_Number_toString (n : Z) : oneLine (Number_toString n) = true.
Proof.
  unfold Number_toString, DecimalString.NilZero.string_of_int,
    DecimalString.NilZero.string_of_uint.
  destruct (Z.to_int n) as [d|d]; destruct d; simpl;
    try reflexivity; apply oneLine_uint.
Qed.

Lemma lines_nonempty (s : string) : lines s <> [].
Proof.
  induction s as [|c s IH]; simpl; [done|].
  destruct (Ascii.eqb c LF); [done|]. by destruct (lines s).
Qed.

Lemma lines_oneLine (s : string) : oneLine s = true -> lines s = [s].
Proof.
  induction s as [|c s IH]; simpl; [done|].
  destruct (Ascii.eqb c LF); simpl; [done|].
  intros Hs. by rewrite IH.
Qed.

(** A line feed ends the line it follows: splitting distributes over it. *)
Lemma lines_append_LF (a b : string) :
  lines (a +:+ String LF b) = lines a ++ lines b.
Proof.
  induction a as [|c a IH]; simpl; [done|].
  rewrite IH. destruct (Ascii.eqb c LF); [done|].
  pose proof (lines_nonempty a). by destruct (lines a).
Qed.

Lemma lines_append_nl (a b : string) :
  lines (a +:+ nl +:+ b) = lines a ++ lines b.
Proof. exact (lines_append_LF a b). Qed.

Lemma lines_concat_blank (blocks : list string) :
  blocks <> [] ->
  lines (String.concat (nl +:+ nl) blocks) = blankSeparated (lines <$> blocks).
Proof.
  induction blocks as [|b blocks IH]; [done|]. intros _.
  destruct blocks as [|b' blocks]; [simpl; by rewrite app_nil_r || done|].
  change (String.concat (nl +:+ nl) (b :: b' :: blocks))
    with (b +:+ (nl +:+ nl) +:+ String.concat (nl +:+ nl) (b' :: blocks)).
  rewrite append_assoc, lines_append_nl.
  change (nl +:+ String.concat (nl +:+ nl) (b' :: blocks))
    with ("" +:+ nl +:+ String.concat (nl +:+ nl) (b' :: blocks)).
  rewrite lines_append_nl, IH by done. reflexivity.
Qed.

Lemma oneLine_titleLine index item :
  oneLine (ToString (title item)) = true -> oneLine (titleLine index item) = true.
Proof.
  intros Ht. unfold titleLine.
  rewrite !oneLine_append, oneLine_Number_toString, Ht. reflexivity.
Qed.

Lemma oneLine_thumbnailLine item :
  oneLine (ToString (thumbnailOf item)) = true -> oneLine (thumbnailLine item) = true.
Proof.
  intros Ht. unfold thumbnailLine.
  destruct (ToBoolean (thumbnailOf item)); [|done].
  by rewrite oneLine_append, Ht.
Qed.

Lemma oneLine_description item :
  oneLine (ToString (snippet item)) = true ->
  oneLine (ToString (orElse (snippet item) (JsString "No description"))) = true.
Proof. intros Hs. unfold orElse. by destruct (ToBoolean (snippet item)). Qed.

(** Lines joined by line feeds split back into themselves. *)
Lemma lines_concat_nl (ls : list string) :
  ls <> [] -> Forall (fun l => oneLine l = true) ls ->
  lines (String.concat nl ls) = ls.
Proof.
  induction ls as [|l ls IH]; [done|]. intros _ Hall.
  apply Forall_cons in Hall as [Hl Hls].
  destruct ls as [|l' ls]; [by apply lines_oneLine|].
  change (String.concat nl (l :: l' :: ls))
    with (l +:+ nl +:+ String.concat nl (l' :: ls)).
  rewrite lines_append_nl, lines_oneLine, IH by done. reflexivity.
Qed.

Lemma webBlock_joined index item :
  webBlock index item = String.concat nl (webLines index item).
Proof.
  unfold webBlock, webLines, titleLine. simpl.
  rewrite !append_assoc. reflexivity.
Qed.

Lemma imageBlock_joined index item :
  imageBlock index item = String.concat nl (imageLines index item).
Proof.
  unfold imageBlock, imageLines, titleLine. simpl.
  rewrite !append_assoc. reflexivity.
Qed.

(** A web block is its three lines, an image block its four. *)
Lemma lines_webBlock index item :
  oneLineItem item -> lines (webBlock index item) = webLines index item.
Proof.
  intros (Ht & Hs & Hl & _). rewrite webBlock_joined.
  apply lines_concat_nl; [done|]. unfold webLines.
  repeat constructor; [by apply oneLine_titleLine | |];
    by rewrite oneLine_append, ?Hs, ?Hl.
Qed.

Lemma lines_imageBlock index item :
  oneLineItem item -> lines (imageBlock index item) = imageLines index item.
Proof.
  intros (Ht & Hs & Hl & Hth). rewrite imageBlock_joined.
  apply lines_concat_nl; [done|]. unfold imageLines.
  repeat constructor.
  - by apply oneLine_titleLine.
  - by rewrite oneLine_append, oneLine_description.
  - by rewrite oneLine_append, Hl.
  - by apply oneLine_thumbnailLine.
Qed.

Lemma imap_lines (block : nat -> Item -> string) (blockLines : nat -> Item -> list string)
    (its : list Item) :
  (forall index item, oneLineItem item -> lines (block index item) = blockLines index item) ->
  Forall oneLineItem its ->
  lines <$> imap block its = imap blockLines its.
Proof.
  revert block blockLines.
  induction its as [|item its IH]; intros block blockLines Hblock Hall; [done|].
  apply Forall_cons in Hall as [Hitem Hits].
  rewrite !imap_cons, fmap_cons, Hblock by done. f_equal.
  apply IH; [|done]. intros index item'. apply Hblock.
Qed.

Lemma render_items noResults block response (its : list Item) :
  ok response = true ->
  json response = Normal {| error := None; items := Some its |} ->
  its <> [] ->
  render noResults block response = Normal (formatItems block its).
Proof.
  intros Hok Hjson Hne. unfold render. rewrite Hok, Hjson. simpl.
  by destruct its.
Qed.

Lemma render_no_items noResults block response (its : option (list Item)) :
  ok response = true ->
  json response = Normal {| error := None; items := its |} ->
  its = None \/ its = Some [] ->
  render noResults block response = Normal noResults.
Proof.
  intros Hok Hjson Hnone. unfold render. rewrite Hok, Hjson. simpl.
  by destruct Hnone as [-> | ->].
Qed.

Lemma lines_formatItems block blockLines (its : list Item) :
  (forall index item, oneLineItem item -> lines (block index item) = blockLines index item) ->
  its <> [] -> Forall oneLineItem its ->
  lines (formatItems block its) = blankSeparated (imap blockLines its).
Proof.
  intros Hblock Hne Hall. unfold formatItems.
  rewrite lines_concat_blank by (by destruct its).
  f_equal. by apply imap_lines.
Qed.

(** The lines of the two templates, written out. *)
Lemma imageLines_written_out index item :
  imageLines index item =
    [ "[" +:+ Number_toString (Z.of_nat index + 1) +:+ "] Title: " +:+ ToString (title item);
      "Description: " +:+
        (if ToBoolean (snippet item) then ToString (snippet item) else "No description");
      "Image URL: " +:+ ToString (link item);
      match image item with
      | Some im =>
          if ToBoolean (thumbnailLink im)
          then "Thumbnail: " +:+ ToString (thumbnailLink im)
          else ""
      | None => ""
      end ].
Proof.
  unfold imageLines, titleLine, orElse, thumbnailLine, thumbnailOf.
  destruct (ToBoolean (snippet item)); destruct (image item) as [im|];
    try destruct (ToBoolean (thumbnailLink im)); reflexivity.
Qed.

(** C8, as the code has it.  A successful response with n >= 1 items
    is rendered as n blocks joined by two line feeds, the k-th made
    from the k-th item and numbered k, counting from 1.  A web block is
    its title, description and URL lines.  An image block is its title,
    description and image-URL lines and a fourth line, which reads
    [Thumbnail: ] and the link when the item has a thumbnail link, and
    is empty when it has none: the block then has no thumbnail line and
    ends in a line feed, so that two empty lines come before the next
    block.  When no field holds a line feed, the text split at line
    feeds is exactly those lines, with one empty line between
    neighbouring blocks.  With no items the text is a fixed sentence,
    one for web and another for image search.  The items are those of
    an array of the runtime: fewer than 2^32, the numbers among their
    fields integers of magnitude below 2^53. *)
Theorem render_block_lines (response : Response) (data_items : option (list Item)) :
  let webLinesOf := fun (k : nat) (item : Item) =>
    [ "[" +:+ Number_toString (Z.of_nat k + 1) +:+ "] Title: " +:+ ToString (title item);
      "Description: " +:+ ToString (snippet item);
      "URL: " +:+ ToString (link item) ] in
  let imageLinesOf := fun (k : nat) (item : Item) =>
    [ "[" +:+ Number_toString (Z.of_nat k + 1) +:+ "] Title: " +:+ ToString (title item);
      "Description: " +:+
        (if ToBoolean (snippet item) then ToString (snippet item) else "No description");
      "Image URL: " +:+ ToString (link item);
      match image item with
      | Some im =>
          if ToBoolean (thumbnailLink im)
          then "Thumbnail: " +:+ ToString (thumbnailLink im)
          else ""
      | None => ""
      end ] in
  ok response = true ->
  json response = Normal {| error := None; items := data_items |} ->
  match data_items with
  | None | Some [] =>
      render "No results found for your query." webBlock response
        = Normal "No results found for your query." /\
      render "No image results found for your query." imageBlock response
        = Normal "No image results found for your query." /\
      "No results found for your query." <> "No image results found for your query."
  | Some its =>
      Forall safeItem its ->
      Z.of_nat (length its) < 2 ^ 32 ->
      render "No results found for your query." webBlock response
        = Normal (String.concat (nl +:+ nl)
                    (imap (fun k item => String.concat nl (webLinesOf k item)) its)) /\
      render "No image results found for your query." imageBlock response
        = Normal (String.concat (nl +:+ nl)
                    (imap (fun k item => String.concat nl (imageLinesOf k item)) its)) /\
      (Forall oneLineItem its ->
         lines (String.concat (nl +:+ nl)
                  (imap (fun k item => String.concat nl (webLinesOf k item)) its))
           = blankSeparated (imap webLinesOf its) /\
         lines (String.concat (nl +:+ nl)
                  (imap (fun k item => String.concat nl (imageLinesOf k item)) its))
           = blankSeparated (imap imageLinesOf its))
  end.
Proof.
  intros webLinesOf imageLinesOf Hok Hjson.
  destruct data_items as [[|item its]|].
  1,3: repeat split; [eapply render_no_items; eauto .. | discriminate].
  intros _ _.
  assert (Hweb : imap (fun k item => String.concat nl (webLinesOf k item)) (item :: its)
                 = imap webBlock (item :: its)).
  { apply imap_ext. intros k x _. by rewrite webBlock_joined. }
  assert (Himage : imap (fun k item => String.concat nl (imageLinesOf k item)) (item :: its)
                   = imap imageBlock (item :: its)).
  { apply imap_ext. intros k x _.
    by rewrite imageBlock_joined, imageLines_written_out. }
  rewrite Hweb, Himage.
  split; [by apply render_items|].
  split; [by apply render_items|].
  intros Hall. split.
  - apply (lines_formatItems webBlock webLinesOf); [apply lines_webBlock | done | done].
  - transitivity (blankSeparated (imap imageLines (item :: its))).
    + apply (lines_formatItems imageBlock imageLines); [apply lines_imageBlock | done | done].
    + f_equal. apply imap_ext. intros k x _. apply imageLines_written_out.
Qed.

(** The block theorem at a response of two items: the web text is two
    numbered blocks of three lines with one empty line between them,
    the image text two blocks of four. *)
Lemma render_block_lines_witness :
  (exists webText,
     render "No results found for your query." webBlock (okResponse (Some [itemA; itemB]))
       = Normal webText /\
     lines webText =
       [ "[1] Title: A"; "Description: first"; "URL: https://a.example"; "";
         "[2] Title: B"; "Description: second"; "URL: https://b.example" ]) /\
  (exists imageText,
     render "No image results found for your query." imageBlock
       (okResponse (Some [itemA; itemB])) = Normal imageText /\
     lines imageText =
       [ "[1] Title: A"; "Description: first"; "Image URL: https://a.example";
         "Thumbnail: https://a.example/t.png"; "";
         "[2] Title: B"; "Description: second"; "Image URL: https://b.example";
         "Thumbnail: https://b.example/t.png" ]).
Proof.
  destruct (render_block_lines (okResponse (Some [itemA; itemB])) (Some [itemA; itemB])
              eq_refl eq_refl)
    as (Hweb & Himage & Hlines).
  - repeat constructor.
  - reflexivity.
  - destruct Hlines as [Hwl Hil]; [repeat constructor|].
    split; eexists; (split; [eassumption | assumption]).
Defined.

(** C8 as stated fails: an image item without a thumbnail gets no
    thumbnail line, and two empty lines, not one, separate its block
    from the next. *)
Lemma missing_thumbnail_widens_gap :
  render "No image results found for your query." imageBlock
    (okResponse (Some [itemNoThumbnail; itemB]))
  = Normal (String.concat nl
      [ "[1] Title: A"; "Description: first"; "Image URL: https://a.example"; ""; "";
        "[2] Title: B"; "Description: second"; "Image URL: https://b.example";
        "Thumbnail: https://b.example/t.png" ]) /\
  lines (formatItems imageBlock [itemNoThumbnail; itemB])
  = [ "[1] Title: A"; "Description: first"; "Image URL: https://a.example"; ""; "";
      "[2] Title: B"; "Description: second"; "Image URL: https://b.example";
      "Thumbnail: https://b.example/t.png" ].
Proof. split; vm_compute; reflexivity. Qed.

(** C7, as the code has it.  Whatever fields an item supplies, as long
    as none holds a line feed, its web block has three lines and its
    image block four.  In an image block a missing (or empty) snippet
    is rendered as the fixed text [No description], and a missing
    thumbnail leaves the fourth line empty. *)
Theorem block_line_count (index : nat) (item : Item) :
  oneLineItem item ->
  length (lines (webBlock index item)) = 3%nat /\
  length (lines (imageBlock index item)) = 4%nat /\
  (ToBoolean (snippet item) = false ->
   lines (imageBlock index item) !! 1%nat = Some "Description: No description") /\
  (ToBoolean (thumbnailOf item) = false ->
   lines (imageBlock index item) !! 3%nat = Some "").
Proof.
  intros Hitem. rewrite lines_webBlock, lines_imageBlock by done.
  unfold imageLines, orElse, thumbnailLine.
  repeat split; intros ->; reflexivity.
Qed.

(** The line counts at an item from which every field is missing. *)
Lemma block_line_count_witness :
  length (lines (webBlock 0 (mkItem JsUndefined JsUndefined JsUndefined None))) = 3%nat /\
  length (lines (imageBlock 0 (mkItem JsUndefined JsUndefined JsUndefined None))) = 4%nat.
Proof.
  destruct (block_line_count 0 (mkItem JsUndefined JsUndefined JsUndefined None))
    as (Hweb & Himage & _).
  - repeat split; reflexivity.
  - exact (conj Hweb Himage).
Defined.

(** C7 as stated fails: an image item without a thumbnail gets no
    placeholder, the last line of its block is empty. *)
Lemma imageBlock_thumbnail_line_empty :
  lines (imageBlock 0 itemNoThumbnail)
    = [ "[1] Title: A"; "Description: first"; "Image URL: https://a.example"; "" ].
Proof. vm_compute. reflexivity. Qed.

(** What a missing field of a web item renders as. *)
Example webBlock_missing_snippet :
  lines (webBlock 0 (mkItem (JsString "A") (JsString "https://a.example") JsUndefined None))
    = [ "[1] Title: A"; "Description: undefined"; "URL: https://a.example" ].
Proof. vm_compute. reflexivity. Qed.

(** ** Argument guards *)

(** A guard accepts exactly the objects whose [query] is a string. *)
Lemma isGoogleWebSearchArgs_spec (args : Unknown) :
  isGoogleWebSearchArgs args = true <->
  exists o s, args = Object o /\ o !! "query" = Some (JsString s).
Proof.
  unfold isGoogleWebSearchArgs. split.
  - destruct args as [v|o]; [by destruct v|]. simpl.
    destruct (o !! "query") as [v|] eqn:Hq; simpl.
    + destruct v; simpl; rewrite ?andb_false_r; try done.
      intros _. by eexists _, _.
    + done.
  - intros (o & s & -> & Hq). simpl. by rewrite Hq.
Qed.

Lemma isGoogleImageSearchArgs_spec (args : Unknown) :
  isGoogleImageSearchArgs args = true <->
  exists o s, args = Object o /\ o !! "query" = Some (JsString s).
Proof. exact (isGoogleWebSearchArgs_spec args). Qed.

Lemma guards_reject (o : gmap string JsValue) :
  (forall s, o !! "query" <> Some (JsString s)) ->
  isGoogleWebSearchArgs (Object o) = false /\ isGoogleImageSearchArgs (Object o) = false.
Proof.
  intros Hq. split; apply not_true_is_false.
  - intros (o' & s & [= <-] & Hs)%isGoogleWebSearchArgs_spec. by eapply Hq.
  - intros (o' & s & [= <-] & Hs)%isGoogleImageSearchArgs_spec. by eapply Hq.
Qed.

Lemma guards_accept (o : gmap string JsValue) (s : string) :
  o !! "query" = Some (JsString s) ->
  isGoogleWebSearchArgs (Object o) = true /\ isGoogleImageSearchArgs (Object o) = true.
Proof.
  intros Hq. split.
  - apply isGoogleWebSearchArgs_spec. by eexists _, _.
  - apply isGoogleImageSearchArgs_spec. by eexists _, _.
Qed.

(** ** Search functions and dispatch *)

Section Dispatch.
Context `{JsRuntime}.

(** [performWebSearch], stage by stage. *)
Lemma performWebSearch_stages env query count start site w :
  performWebSearch env query count start site w =
    let count := orDefault count (JsNumber 5) in
    let start := orDefault start (JsNumber 1) in
    let site := orDefault site (JsString "") in
    let rc := (checkRateLimit (clock env) (requestCount w)).2 in
    match (checkRateLimit (clock env) (requestCount w)).1 with
    | Throw e => (Throw e, {| requestCount := rc; sent := sent w |})
    | Normal _ =>
        match searchQueryOf query site with
        | Throw e => (Throw e, {| requestCount := rc; sent := sent w |})
        | Normal searchQuery =>
            match toString_method start with
            | Throw e => (Throw e, {| requestCount := rc; sent := sent w |})
            | Normal startText =>
                let p := webParams env searchQuery count startText in
                (match fetch env p with
                 | Throw e => Throw e
                 | Normal response =>
                     render "No results found for your query." webBlock response
                 end,
                 {| requestCount := rc; sent := p :: sent w |})
            end
        end
    end.
Proof.
  unfold performWebSearch, bind, lift, checkRateLimitM, fetchM, webParams.
  destruct (checkRateLimit (clock env) (requestCount w)) as [[[]|e] rc]; simpl; [|done].
  destruct (searchQueryOf query _) as [sq|e]; simpl; [|done].
  destruct (toString_method _) as [st|e]; simpl; [|done].
  by destruct (fetch env _) as [response|e].
Qed.

Lemma performImageSearch_stages env query count start w :
  performImageSearch env query count start w =
    let count := orDefault count (JsNumber 5) in
    let start := orDefault start (JsNumber 1) in
    let rc := (checkRateLimit (clock env) (requestCount w)).2 in
    match (checkRateLimit (clock env) (requestCount w)).1 with
    | Throw e => (Throw e, {| requestCount := rc; sent := sent w |})
    | Normal _ =>
        match toString_method start with
        | Throw e => (Throw e, {| requestCount := rc; sent := sent w |})
        | Normal startText =>
            let p := imageParams env query count startText in
            (match fetch env p with
             | Throw e => Throw e
             | Normal response =>
                 render "No image results found for your query." imageBlock response
             end,
             {| requestCount := rc; sent := p :: sent w |})
        end
    end.
Proof.
  unfold performImageSearch, bind, lift, checkRateLimitM, fetchM, imageParams.
  destruct (checkRateLimit (clock env) (requestCount w)) as [[[]|e] rc]; simpl; [|done].
  destruct (toString_method _) as [st|e]; simpl; [|done].
  by destruct (fetch env _) as [response|e].
Qed.

Lemma callToolHandler_web env (o : gmap string JsValue) (s : string) w :
  o !! "query" = Some (JsString s) ->
  callToolHandler env "google_web_search" (Object o) w =
    wrap (performWebSearch env (JsString s)
            (orDefault (getProperty "count" (Object o)) (JsNumber 5))
            (orDefault (getProperty "start" (Object o)) (JsNumber 1))
            (orDefault (getProperty "site" (Object o)) (JsString "")) w).
Proof.
  intros Hq. destruct (guards_accept o s Hq) as [Hweb _].
  unfold callToolHandler, callToolBody, tryCatch. simpl falsy. cbn iota.
  rewrite Hweb. simpl. rewrite Hq. simpl. unfold bind, ret, wrap.
  by destruct (performWebSearch _ _ _ _ _ w) as [[results|e] w'].
Qed.

Lemma callToolHandler_image env (o : gmap string JsValue) (s : string) w :
  o !! "query" = Some (JsString s) ->
  callToolHandler env "google_image_search" (Object o) w =
    wrap (performImageSearch env (JsString s)
            (orDefault (getProperty "count" (Object o)) (JsNumber 5))
            (orDefault (getProperty "start" (Object o)) (JsNumber 1)) w).
Proof.
  intros Hq. destruct (guards_accept o s Hq) as [_ Himage].
  unfold callToolHandler, callToolBody, tryCatch. simpl falsy. cbn iota.
  rewrite Himage. simpl. rewrite Hq. simpl. unfold bind, ret, wrap.
  by destruct (performImageSearch _ _ _ _ w) as [[results|e] w'].
Qed.

End Dispatch.

Section DispatchProperties.
Context `{JsRuntime}.

Lemma wrap_world outcome : (wrap outcome).2 = outcome.2.
Proof. by destruct outcome as [[results|e] w']. Qed.

(** On a string query the site test cannot throw. *)
Lemma searchQueryOf_string (query : string) (site : JsValue) :
  searchQueryOf (JsString query) site =
    Normal (if ToBoolean site && negb (includes "site:" query)
            then query +:+ " site:" +:+ ToString site
            else query).
Proof.
  unfold searchQueryOf. simpl.
  destruct (ToBoolean site); [|done]. by destruct (includes "site:" query).
Qed.

Lemma getProperty_number (o : gmap string JsValue) (k : string) (n : option Z) (d : Z) :
  o !! k = JsNumber <$> n ->
  orDefault (getProperty k (Object o)) (JsNumber d) = JsNumber (default d n).
Proof. intros Hk. simpl. rewrite Hk. by destruct n. Qed.

(** What an admitted web search sends, and what an admitted image search
    sends, when [start.toString()] returns. *)
Lemma performWebSearch_sends env (query : string) count start site startText w :
  (checkRateLimit (clock env) (requestCount w)).1 = Normal tt ->
  toString_method (orDefault start (JsNumber 1)) = Normal startText ->
  sent (performWebSearch env (JsString query) count start site w).2 =
    webParams env
      (if ToBoolean (orDefault site (JsString "")) && negb (includes "site:" query)
       then query +:+ " site:" +:+ ToString (orDefault site (JsString ""))
       else query)
      (orDefault count (JsNumber 5)) startText :: sent w.
Proof.
  intros Hadmit Hstart. rewrite performWebSearch_stages. cbv zeta.
  by rewrite Hadmit, searchQueryOf_string, Hstart.
Qed.

Lemma performImageSearch_sends env query count start startText w :
  (checkRateLimit (clock env) (requestCount w)).1 = Normal tt ->
  toString_method (orDefault start (JsNumber 1)) = Normal startText ->
  sent (performImageSearch env query count start w).2 =
    imageParams env query (orDefault count (JsNumber 5)) startText :: sent w.
Proof.
  intros Hadmit Hstart. rewrite performImageSearch_stages. cbv zeta.
  by rewrite Hadmit, Hstart.
Qed.

Lemma orDefault_idem v d : orDefault (orDefault v d) d = orDefault v d.
Proof. destruct v; try done. by destruct d. Qed.

(** C5, as the code has it.  A bag whose [query] is missing or is not a
    string is refused by the guard of either tool: the handler answers
    with the invalid-arguments error and the world, counters included,
    is what it was. *)
Theorem missing_query_rejected env (name : string) (o : gmap string JsValue) w :
  knownTool name = true ->
  (forall s, o !! "query" <> Some (JsString s)) ->
  callToolHandler env name (Object o) w =
    ({| text := "Error: Invalid arguments for " +:+ name; isError := true |}, w).
Proof.
  intros Hknown Hq. destruct (guards_reject o Hq) as [Hweb Himage].
  unfold knownTool in Hknown.
  unfold callToolHandler, callToolBody, tryCatch. simpl falsy. cbn iota.
  destruct (String.eqb_spec name "google_web_search") as [->|_].
  - by rewrite Hweb.
  - simpl in Hknown. destruct (String.eqb_spec name "google_image_search") as [->|_];
      [by rewrite Himage | done].
Qed.

(** C6.  For a bag with a string query, a site that is a string or
    absent, and a numeric or absent start, the query text of the request
    an admitted web search sends is the raw query followed by
    [ site:<site>] when the site is non-empty and the raw query does not
    contain [site:], and the raw query otherwise. *)
Theorem site_restriction env (o : gmap string JsValue) (query : string)
    (site : option string) (st : option Z) w :
  o !! "query" = Some (JsString query) ->
  o !! "site" = JsString <$> site ->
  o !! "start" = JsNumber <$> st ->
  (checkRateLimit (clock env) (requestCount w)).1 = Normal tt ->
  exists p,
    sent (callToolHandler env "google_web_search" (Object o) w).2 = p :: sent w /\
    q p = if negb (String.eqb (default "" site) "") && negb (includes "site:" query)
          then query +:+ " site:" +:+ default "" site
          else query.
Proof.
  intros Hq Hsite Hstart Hadmit.
  eexists. rewrite (callToolHandler_web env o query w Hq), wrap_world.
  rewrite (getProperty_number o "start" st 1 Hstart).
  rewrite (performWebSearch_sends env query _ _ _ (Number_toString (default 1 st)))
    by done.
  split; [reflexivity|]. simpl. rewrite Hsite. by destruct site.
Qed.

(** The requests of a call keep the counters the limiter left. *)
Lemma performWebSearch_counters env query count start site w :
  requestCount (performWebSearch env query count start site w).2 =
    (checkRateLimit (clock env) (requestCount w)).2.
Proof.
  rewrite performWebSearch_stages. cbv zeta.
  destruct (checkRateLimit (clock env) (requestCount w)).1; [|done].
  destruct (searchQueryOf _ _); [|done]. by destruct (toString_method _).
Qed.

Lemma performImageSearch_counters env query count start w :
  requestCount (performImageSearch env query count start w).2 =
    (checkRateLimit (clock env) (requestCount w)).2.
Proof.
  rewrite performImageSearch_stages. cbv zeta.
  destruct (checkRateLimit (clock env) (requestCount w)).1; [|done].
  by destruct (toString_method _).
Qed.

(** The body of the handler returns normally in two ways only: with the
    wrapped results of a known tool, or with the unknown-tool result. *)
Lemma callToolBody_returns env name args w r w' :
  callToolBody env name args w = (Normal r, w') ->
  if knownTool name
  then isError r = false
  else r = {| text := "Unknown tool: " +:+ name; isError := true |} /\ w' = w.
Proof.
  unfold callToolBody, knownTool, throw, ret, bind.
  destruct (falsy args); [done|].
  destruct (String.eqb name "google_web_search").
  - destruct (isGoogleWebSearchArgs args); simpl; [|done].
    destruct (performWebSearch _ _ _ _ _ w) as [[results|e] w1]; [|done].
    by intros [= <- <-].
  - destruct (String.eqb name "google_image_search"); simpl.
    + destruct (isGoogleImageSearchArgs args); simpl; [|done].
      destruct (performImageSearch _ _ _ _ w) as [[results|e] w1]; [|done].
      by intros [= <- <-].
    + by intros [= <- <-].
Qed.

(** C9, as the code has it.  The handler always returns a result.
    Whatever the body throws, at whatever stage, comes back as the
    result with text [Error: <message>] and [isError] true; a body that
    returns gives a non-error result for a known tool.  For an unknown
    tool name the result has [isError] true and the world is untouched:
    its text is [Unknown tool: <name>] when arguments were given, and
    the no-arguments error otherwise. *)
Theorem callToolHandler_catches env (name : string) (args : Unknown) w :
  exists r w',
    callToolHandler env name args w = (r, w') /\
    match (callToolBody env name args w).1 with
    | Throw e => r = {| text := "Error: " +:+ messageOf e; isError := true |}
    | Normal _ =>
        if knownTool name then isError r = false
        else r = {| text := "Unknown tool: " +:+ name; isError := true |}
    end /\
    (knownTool name = false ->
     isError r = true /\ w' = w /\
     text r = if falsy args then "Error: No arguments provided"
              else "Unknown tool: " +:+ name).
Proof.
  unfold callToolHandler, tryCatch.
  destruct (callToolBody env name args w) as [[r|e] w'] eqn:Hbody.
  - exists r, w'. split; [done|].
    pose proof (callToolBody_returns env name args w r w' Hbody) as Hret.
    simpl. destruct (knownTool name).
    + split; [exact Hret | done].
    + destruct Hret as [-> ->]. split; [done|]. intros _.
      repeat split. unfold callToolBody, throw in Hbody. by destruct (falsy args).
  - exists (errorResult e), w'. split; [done|]. split; [done|].
    intros Hunknown. unfold callToolBody, knownTool, throw, ret in Hbody, Hunknown.
    apply orb_false_elim in Hunknown as [Hweb Himage].
    rewrite Hweb, Himage in Hbody.
    destruct (falsy args); by simplify_eq.
Qed.

End DispatchProperties.

(** ** The dispatch properties at concrete calls *)

(** C4 as stated fails: a count of 50 and a start of 0 pass validation,
    the call consumes quota and goes upstream. *)
Lemma out_of_range_accepted :
  isGoogleWebSearchArgs (Object bagOutOfRange) = true /\
  @callToolHandler exampleRuntime (exampleEnv (mkClock 0 0) None)
    "google_web_search" (Object bagOutOfRange) (freshWorld (mkClock 0 0))
  = ({| text := "No results found for your query."; isError := false |},
     {| requestCount := {| daily := 1; second := 1;
                           lastSecondReset := 0; lastDayReset := 0 |};
        sent := [ {| key := "k"; cx := "c"; q := "foo"; num := "10";
                     start := "0"; searchType := None |} ] |}).
Proof. split; vm_compute; reflexivity. Qed.

(** The missing-query theorem at the empty bag. *)
Lemma missing_query_rejected_witness :
  @callToolHandler exampleRuntime (exampleEnv (mkClock 0 0) None)
    "google_image_search" (Object ∅) (freshWorld (mkClock 0 0))
  = ({| text := "Error: Invalid arguments for google_image_search"; isError := true |},
     freshWorld (mkClock 0 0)).
Proof.
  apply (@missing_query_rejected exampleRuntime (exampleEnv (mkClock 0 0) None)
           "google_image_search" ∅ (freshWorld (mkClock 0 0))).
  - reflexivity.
  - intros s. rewrite lookup_empty. discriminate.
Defined.

(** C5 as stated fails: a query of three spaces passes validation and
    the call is counted. *)
Lemma blank_query_accepted :
  @callToolHandler exampleRuntime (exampleEnv (mkClock 0 0) None)
    "google_web_search" (Object bagBlankQuery) (freshWorld (mkClock 0 0))
  = ({| text := "No results found for your query."; isError := false |},
     {| requestCount := {| daily := 1; second := 1;
                           lastSecondReset := 0; lastDayReset := 0 |};
        sent := [ {| key := "k"; cx := "c"; q := "   "; num := "5";
                     start := "1"; searchType := None |} ] |}).
Proof. vm_compute. reflexivity. Qed.

(** The site theorem at query [foo] and site [example.com]. *)
Lemma site_restriction_witness :
  exists p,
    sent (@callToolHandler exampleRuntime (exampleEnv (mkClock 0 0) None)
            "google_web_search" (Object bagSite) (freshWorld (mkClock 0 0))).2
      = p :: [] /\
    q p = "foo site:example.com".
Proof.
  exact (@site_restriction exampleRuntime (exampleEnv (mkClock 0 0) None)
           bagSite "foo" (Some "example.com") None (freshWorld (mkClock 0 0))
           eq_refl eq_refl eq_refl eq_refl).
Defined.

(** A query that already restricts the site is sent as it is. *)
Example site_restriction_already_there :
  sent (@callToolHandler exampleRuntime (exampleEnv (mkClock 0 0) None)
          "google_web_search"
          (Object (<["site" := JsString "example.com"]>
                     {["query" := JsString "news site:bbc.com"]}))
          (freshWorld (mkClock 0 0))).2
  = [ {| key := "k"; cx := "c"; q := "news site:bbc.com"; num := "5";
         start := "1"; searchType := None |} ].
Proof. vm_compute. reflexivity. Qed.

(** The catch theorem at an unknown tool name. *)
Lemma callToolHandler_catches_witness :
  exists r,
    @callToolHandler exampleRuntime (exampleEnv (mkClock 0 0) None)
      "web_search" (Object ∅) (freshWorld (mkClock 0 0))
    = (r, freshWorld (mkClock 0 0)) /\
    isError r = true /\ text r = "Unknown tool: web_search".
Proof.
  destruct (@callToolHandler_catches exampleRuntime (exampleEnv (mkClock 0 0) None)
              "web_search" (Object ∅) (freshWorld (mkClock 0 0)))
    as (r & w' & Hcall & _ & Hunknown).
  destruct (Hunknown eq_refl) as (Herr & -> & Htext).
  exists r. split; [exact Hcall | split; [exact Herr | exact Htext]].
Defined.

(** C9 as stated fails: the answer to an unknown tool name names
    neither of the two tools, and does not start with [Error: ]. *)
Lemma unknown_tool_message :
  @callToolHandler exampleRuntime (exampleEnv (mkClock 0 0) None)
    "web_search" (Object ∅) (freshWorld (mkClock 0 0))
  = ({| text := "Unknown tool: web_search"; isError := true |}, freshWorld (mkClock 0 0)) /\
  includes "google_web_search" "Unknown tool: web_search" = false /\
  includes "google_image_search" "Unknown tool: web_search" = false /\
  String.prefix "Error: " "Unknown tool: web_search" = false.
Proof. repeat split; vm_compute; reflexivity. Qed.

(** C10 as stated fails: with a [null] start the call passes validation
    and consumes quota, and then [start.toString()] throws; nothing is
    sent upstream. *)
Lemma null_start_never_sent :
  isGoogleWebSearchArgs (Object bagNullStart) = true /\
  @callToolHandler exampleRuntime (exampleEnv (mkClock 0 0) None)
    "google_web_search" (Object bagNullStart) (freshWorld (mkClock 0 0))
  = ({| text := "Error: Cannot read properties of null (reading 'toString')";
        isError := true |},
     {| requestCount := {| daily := 1; second := 1;
                           lastSecondReset := 0; lastDayReset := 0 |};
        sent := [] |}).
Proof. split; vm_compute; reflexivity. Qed.

(** Failures of the later stages, as the handler returns them: a sixth
    call within the second, an upstream that answers 403, and a
    connection that fails. *)
Example rate_limited_call :
  (@callToolHandler exampleRuntime (exampleEnv (mkClock 600 0) None)
     "google_web_search" (Object bagSite)
     {| requestCount := (checkAll (ticks 5 100 100 0) (requestCount_init (mkClock 0 0))).2;
        sent := [] |}).1
  = {| text := "Error: Rate limit exceeded"; isError := true |}.
Proof. vm_compute. reflexivity. Qed.

Example forbidden_call :
  (@callToolHandler exampleRuntime
     {| clock := mkClock 0 0; GOOGLE_API_KEY := "k"; GOOGLE_CSE_ID := "c";
        fetch := forbidden |}
     "google_image_search" (Object bagSite) (freshWorld (mkClock 0 0))).1
  = {| text := "Error: Google API error: 403 Forbidden" +:+ nl +:+ "quota";
       isError := true |}.
Proof. vm_compute. reflexivity. Qed.

Example unreachable_call :
  (@callToolHandler exampleRuntime
     {| clock := mkClock 0 0; GOOGLE_API_KEY := "k"; GOOGLE_CSE_ID := "c";
        fetch := unreachable |}
     "google_web_search" (Object bagSite) (freshWorld (mkClock 0 0))).1
  = {| text := "Error: fetch failed"; isError := true |}.
Proof. vm_compute. reflexivity. Qed.

(** * Further properties of the code *)

(** ** Rate limiter: what a window lets through *)

(** Within one second window the second counter counts the admitted
    checks, and the window start stays put. *)
Lemma checkAll_second_count cs : forall rc,
  Forall (sameSecond rc) cs ->
  second (checkAll cs rc).2 = second rc + admitted (checkAll cs rc).1 /\
  lastSecondReset (checkAll cs rc).2 = lastSecondReset rc.
Proof.
  induction cs as [|c cs IH]; intros rc Hwin.
  - unfold admitted. simpl. split; [lia | done].
  - apply Forall_cons in Hwin as [Hc Hcs].
    destruct (resetWindows_sameSecond c rc Hc) as [Hs Hstamp].
    cbn [checkAll].
    destruct (Z.lt_ge_cases (second (resetWindows c rc)) RATE_LIMIT.perSecond) as [Hlt|Hge];
      [destruct (Z.lt_ge_cases (daily (resetWindows c rc)) RATE_LIMIT.perDay) as [Hlt'|Hge'] |].
    1: rewrite checkRateLimit_admits by assumption.
    2,3: rewrite checkRateLimit_rejects by lia.
    all: match goal with |- context [checkAll _ ?r] => set (rc1 := r) in * end;
      destruct (IH rc1) as [Hcount Hlast];
      [ eapply Forall_impl; [exact Hcs|]; intros c'; apply sameSecond_stamp;
        subst rc1; cbn [lastSecondReset]; congruence
      | destruct (checkAll cs rc1) as [os rc2]; subst rc1;
        cbn [fst snd second lastSecondReset] in *;
        unfold admitted in *; rewrite ?filter_cons_True, ?filter_cons_False by (simpl; congruence);
        cbn [length] in *; split; [lia | congruence] ].
Qed.

(** X1.  Whatever the timing of the checks of one day, the limiter
    admits no more than the daily cap leaves: the count already stored
    plus the checks admitted never exceeds [perDay] = 100. *)
Theorem daily_quota_never_exceeded (rc : RequestCount) (cs : list Clock) :
  withinCaps rc ->
  Forall (sameDay rc) cs ->
  daily rc + admitted (checkAll cs rc).1 <= RATE_LIMIT.perDay /\
  daily (checkAll cs rc).2 = daily rc + admitted (checkAll cs rc).1.
Proof.
  intros Hcaps Hday.
  destruct (checkAll_daily_count cs rc Hday) as [Hcount _].
  pose proof (checkAll_withinCaps cs rc Hcaps) as [_ [_ Hcap]].
  split; [lia | exact Hcount].
Qed.

(** The daily bound at a day of 150 checks two seconds apart. *)
Lemma daily_quota_never_exceeded_witness :
  admitted (checkAll (ticks 150 2000 2000 0) (requestCount_init (mkClock 0 0))).1 <= 100.
Proof.
  destruct (daily_quota_never_exceeded (requestCount_init (mkClock 0 0))
              (ticks 150 2000 2000 0)) as [Hbound _].
  - apply withinCaps_init.
  - apply Forall_forall. intros c Hc. unfold sameDay. simpl.
    assert (Hall : forall n a s c', In c' (ticks n a s 0) -> todayStart c' <= 0).
    { clear. induction n as [|n IH]; intros a s c' Hin; [destruct Hin|].
      destruct Hin as [<- | Hin]; [simpl; lia | eapply IH; exact Hin]. }
    eapply Hall. apply list_elem_of_In. exact Hc.
  - exact Hbound.
Defined.

(** X2.  As long as no check resets the second window (each comes at
    most 1000 ms after the stored window start, even when the clock has
    been set back), the limiter admits no more than the per-second cap
    leaves; once the window is full every such check is refused. *)
Theorem second_quota_never_exceeded (rc : RequestCount) (cs : list Clock) :
  withinCaps rc ->
  Forall (sameSecond rc) cs ->
  second rc + admitted (checkAll cs rc).1 <= RATE_LIMIT.perSecond /\
  (second rc = RATE_LIMIT.perSecond ->
   (checkAll cs rc).1 = repeat (Throw rateLimitExceeded) (length cs)).
Proof.
  intros Hcaps Hwin. split.
  - destruct (checkAll_second_count cs rc Hwin) as [Hcount _].
    pose proof (checkAll_withinCaps cs rc Hcaps) as [[_ Hcap] _]. lia.
  - clear Hcaps. revert rc Hwin.
    induction cs as [|c cs IH]; intros rc Hwin Hfull; [done|].
    apply Forall_cons in Hwin as [Hc Hcs].
    destruct (resetWindows_sameSecond c rc Hc) as [Hs Hstamp].
    cbn [checkAll length repeat].
    rewrite checkRateLimit_rejects by lia.
    rewrite <- (IH (resetWindows c rc)).
    + by destruct (checkAll cs (resetWindows c rc)).
    + eapply Forall_impl; [exact Hcs|]. intros c'. by apply sameSecond_stamp.
    + congruence.
Qed.

(** The per-second bound at nine checks made in the second after
    start-up. *)
Lemma second_quota_never_exceeded_witness :
  admitted (checkAll (ticks 9 100 100 0) (requestCount_init (mkClock 0 0))).1 <= 5.
Proof.
  destruct (second_quota_never_exceeded (requestCount_init (mkClock 0 0))
              (ticks 9 100 100 0)) as [Hbound _].
  - apply withinCaps_init.
  - repeat constructor; unfold sameSecond; simpl; lia.
  - exact Hbound.
Defined.

(** Each check adds at most one to the daily counter. *)
Lemma checkAll_daily_growth cs : forall rc,
  Z.max 0 (daily (checkAll cs rc).2) <= Z.max 0 (daily rc) + Z.of_nat (length cs).
Proof.
  induction cs as [|c cs IH]; intros rc; [simpl; lia|].
  cbn [checkAll length]. rewrite Nat2Z.inj_succ.
  assert (Hstep : Z.max 0 (daily (checkRateLimit c rc).2) <= Z.max 0 (daily rc) + 1).
  { destruct (Z.lt_ge_cases (second (resetWindows c rc)) RATE_LIMIT.perSecond) as [Hlt|Hge];
      [destruct (Z.lt_ge_cases (daily (resetWindows c rc)) RATE_LIMIT.perDay) as [Hlt'|Hge'] |].
    1: rewrite checkRateLimit_admits by assumption.
    2,3: rewrite checkRateLimit_rejects by lia.
    all: cbn [snd daily]; clear; cases_windows; lia. }
  specialize (IH (checkRateLimit c rc).2).
  destruct (checkRateLimit c rc) as [o rc1]. cbn [snd] in *.
  destruct (checkAll cs rc1) as [os rc2]. cbn [fst snd] in *. lia.
Qed.

Lemma Forall_repeat {A} (P : A -> Prop) (x : A) (n : nat) :
  P x -> Forall P (repeat x n).
Proof. intros Hx. induction n; simpl; by constructor. Qed.

(** X3.  The window is a fixed one: a full burst in the last
    millisecond of a fresh window and another full burst one millisecond
    later, which opens the next window, are all admitted, so ten checks
    pass within one millisecond when the daily counter has room. *)
Theorem window_boundary_burst (rc : RequestCount) (today : Z) :
  second rc = 0 ->
  Z.max 0 (daily rc) + 10 <= RATE_LIMIT.perDay ->
  (checkAll (repeat (mkClock (lastSecondReset rc + 1000) today) 5 ++
             repeat (mkClock (lastSecondReset rc + 1001) today) 5) rc).1
    = repeat (Normal tt) 10.
Proof.
  intros Hfresh Hroom.
  set (W := lastSecondReset rc) in *.
  set (early := repeat (mkClock (W + 1000) today) 5).
  rewrite checkAll_app. cbn [fst].
  destruct (checkAll_within_window early rc) as (Hout & Hsec & Hstamp).
  { apply Forall_repeat. unfold sameSecond. simpl. fold W. lia. }
  { rewrite Hfresh. unfold RATE_LIMIT.perSecond. simpl. lia. }
  { apply dailyOpen_room. simpl. lia. }
  pose proof (checkAll_daily_growth early rc) as Hgrow.
  rewrite Hout. simpl length in *. rewrite Hfresh in Hsec. fold W in Hstamp.
  set (rc5 := (checkAll early rc).2) in *.
  change (repeat (mkClock (W + 1001) today) 5)
    with (mkClock (W + 1001) today :: repeat (mkClock (W + 1001) today) 4).
  cbn [checkAll].
  assert (Hopen : second (resetWindows (mkClock (W + 1001) today) rc5) = 0 /\
                  lastSecondReset (resetWindows (mkClock (W + 1001) today) rc5) = W + 1001 /\
                  Z.max 0 (daily (resetWindows (mkClock (W + 1001) today) rc5))
                    <= Z.max 0 (daily rc5)).
  { clearbody rc5. revert Hstamp. clear. intros Hstamp.
    cases_windows; cbn [Date_now todayStart] in *; lia. }
  destruct Hopen as (Hzero & Hnew & Hday).
  rewrite checkRateLimit_admits
    by (rewrite ?Hzero; unfold RATE_LIMIT.perSecond, RATE_LIMIT.perDay in *; lia).
  set (rc6 := mkRequestCount _ _ _ _).
  destruct (checkAll_within_window (repeat (mkClock (W + 1001) today) 4) rc6)
    as (Hout' & _ & _).
  { apply Forall_repeat. unfold sameSecond. subst rc6. simpl. lia. }
  { subst rc6. cbn [second]. unfold RATE_LIMIT.perSecond. simpl. lia. }
  { apply dailyOpen_room. subst rc6. cbn [daily]. simpl length.
    unfold RATE_LIMIT.perDay in *. lia. }
  destruct (checkAll (repeat (mkClock (W + 1001) today) 4) rc6) as [os rc7].
  cbn [fst] in *. rewrite Hout'. reflexivity.
Qed.

(** The burst at start-up: five checks at 1000 ms and five at 1001 ms. *)
Lemma window_boundary_burst_witness :
  (checkAll (repeat (mkClock 1000 0) 5 ++ repeat (mkClock 1001 0) 5)
     (requestCount_init (mkClock 0 0))).1
    = repeat (Normal tt) 10.
Proof.
  apply (window_boundary_burst (requestCount_init (mkClock 0 0)) 0).
  - reflexivity.
  - unfold RATE_LIMIT.perDay. simpl. lia.
Defined.

(** ** Dispatch: what a call sends and what it reads *)

Section DispatchFurther.
Context `{JsRuntime}.

(** A search sends nothing or one request, built from its arguments. *)
Lemma performWebSearch_sent env query count start site w :
  sent (performWebSearch env query count start site w).2 = sent w \/
  exists searchQuery startText,
    sent (performWebSearch env query count start site w).2
      = webParams env searchQuery (orDefault count (JsNumber 5)) startText :: sent w.
Proof.
  rewrite performWebSearch_stages. cbv zeta.
  destruct (checkRateLimit (clock env) (requestCount w)).1; [|by left].
  destruct (searchQueryOf _ _) as [sq|]; [|by left].
  destruct (toString_method _) as [st|]; [|by left].
  right. by exists sq, st.
Qed.

Lemma performImageSearch_sent env query count start w :
  sent (performImageSearch env query count start w).2 = sent w \/
  exists startText,
    sent (performImageSearch env query count start w).2
      = imageParams env query (orDefault count (JsNumber 5)) startText :: sent w.
Proof.
  rewrite performImageSearch_stages. cbv zeta.
  destruct (checkRateLimit (clock env) (requestCount w)).1; [|by left].
  destruct (toString_method _) as [st|]; [|by left].
  right. by exists st.
Qed.

Lemma bind_world {A B} (m : M A) (k : A -> M B) (w : World) :
  (forall a w', (k a w').2 = w') ->
  (bind m k w).2 = (m w).2.
Proof.
  intros Hk. unfold bind. destruct (m w) as [[a|e] w']; [apply Hk | done].
Qed.

(** The requests the body of the handler leaves behind. *)
Lemma callToolBody_sent env name args w :
  sent (callToolBody env name args w).2 = sent w \/
  exists p,
    sent (callToolBody env name args w).2 = p :: sent w /\
    key p = GOOGLE_API_KEY env /\ cx p = GOOGLE_CSE_ID env /\
    (name = "google_web_search" /\ searchType p = None \/
     name = "google_image_search" /\ searchType p = Some "image").
Proof.
  unfold callToolBody, throw, ret.
  destruct (falsy args); [by left|].
  destruct (String.eqb_spec name "google_web_search") as [->|_].
  - destruct (isGoogleWebSearchArgs args); simpl; [|by left].
    rewrite bind_world by done.
    destruct (performWebSearch_sent env (getProperty "query" args)
                (orDefault (getProperty "count" args) (JsNumber 5))
                (orDefault (getProperty "start" args) (JsNumber 1))
                (orDefault (getProperty "site" args) (JsString "")) w)
      as [Hnone|(sq & st & Hone)]; [by left|].
    right. eexists. split; [exact Hone|]. repeat split. by left.
  - destruct (String.eqb_spec name "google_image_search") as [->|_]; [|by left].
    destruct (isGoogleImageSearchArgs args); simpl; [|by left].
    rewrite bind_world by done.
    destruct (performImageSearch_sent env (getProperty "query" args)
                (orDefault (getProperty "count" args) (JsNumber 5))
                (orDefault (getProperty "start" args) (JsNumber 1)) w)
      as [Hnone|(st & Hone)]; [by left|].
    right. eexists. split; [exact Hone|]. repeat split. by right.
Qed.

Lemma callToolHandler_world env name args w :
  (callToolHandler env name args w).2 = (callToolBody env name args w).2.
Proof.
  unfold callToolHandler, tryCatch.
  by destruct (callToolBody env name args w) as [[r|e] w'].
Qed.

(** X4.  One invocation makes at most one upstream request, never a
    second try: the handler leaves the log of requests as it was or adds
    exactly one request, which carries the two configured credentials
    and is marked as an image search exactly for the image tool. *)
Theorem at_most_one_request env (name : string) (args : Unknown) w :
  sent (callToolHandler env name args w).2 = sent w \/
  exists p,
    sent (callToolHandler env name args w).2 = p :: sent w /\
    key p = GOOGLE_API_KEY env /\ cx p = GOOGLE_CSE_ID env /\
    (name = "google_web_search" /\ searchType p = None \/
     name = "google_image_search" /\ searchType p = Some "image").
Proof.
  rewrite callToolHandler_world.
  destruct (callToolBody_sent env name args w) as [Hnone|(p & Hone & Hp)].
  - left. exact Hnone.
  - right. exists p. split; [exact Hone | exact Hp].
Qed.

(** X5.  A call the limiter refuses is answered with the rate-limit
    error and sends nothing upstream; the counters are left as the
    window resets of that check made them. *)
Theorem refused_call_sends_nothing env (name : string) (o : gmap string JsValue)
    (query : string) w :
  knownTool name = true ->
  o !! "query" = Some (JsString query) ->
  RATE_LIMIT.perSecond <= second (resetWindows (clock env) (requestCount w)) \/
  RATE_LIMIT.perDay <= daily (resetWindows (clock env) (requestCount w)) ->
  callToolHandler env name (Object o) w =
    ({| text := "Error: Rate limit exceeded"; isError := true |},
     {| requestCount := resetWindows (clock env) (requestCount w); sent := sent w |}).
Proof.
  intros Hknown Hq Hfull. unfold knownTool in Hknown.
  pose proof (checkRateLimit_rejects (clock env) (requestCount w) Hfull) as Hrej.
  destruct (String.eqb_spec name "google_web_search") as [->|_].
  - rewrite (callToolHandler_web env o query w Hq), performWebSearch_stages.
    cbv zeta. by rewrite Hrej.
  - simpl in Hknown. apply String.eqb_eq in Hknown as ->.
    rewrite (callToolHandler_image env o query w Hq), performImageSearch_stages.
    cbv zeta. by rewrite Hrej.
Qed.

End DispatchFurther.

(** The refusal at the sixth call of a burst. *)
Lemma refused_call_sends_nothing_witness :
  @callToolHandler exampleRuntime (exampleEnv (mkClock 600 0) None)
    "google_image_search" (Object bagSite)
    {| requestCount := (checkAll (ticks 5 100 100 0) (requestCount_init (mkClock 0 0))).2;
       sent := [] |}
  = ({| text := "Error: Rate limit exceeded"; isError := true |},
     {| requestCount := {| daily := 5; second := 5;
                           lastSecondReset := 0; lastDayReset := 0 |};
        sent := [] |}).
Proof.
  apply (@refused_call_sends_nothing exampleRuntime (exampleEnv (mkClock 600 0) None)
           "google_image_search" bagSite "foo"
           {| requestCount := (checkAll (ticks 5 100 100 0) (requestCount_init (mkClock 0 0))).2;
              sent := [] |}).
  - reflexivity.
  - reflexivity.
  - left. vm_compute. discriminate.
Defined.

Section ArgumentsRead.
Context `{JsRuntime}.

Lemma guards_depend_on_query (o1 o2 : gmap string JsValue) :
  o1 !! "query" = o2 !! "query" ->
  isGoogleWebSearchArgs (Object o1) = isGoogleWebSearchArgs (Object o2) /\
  isGoogleImageSearchArgs (Object o1) = isGoogleImageSearchArgs (Object o2) /\
  getProperty "query" (Object o1) = getProperty "query" (Object o2).
Proof.
  intros Hq. unfold isGoogleWebSearchArgs, isGoogleImageSearchArgs. simpl.
  by rewrite Hq.
Qed.

(** The outcome of a call is a function of the query and of the count,
    the start and, for a web search, the site, each after its default. *)
Lemma callToolHandler_reads env (name : string) (o1 o2 : gmap string JsValue) w :
  o1 !! "query" = o2 !! "query" ->
  orDefault (getProperty "count" (Object o1)) (JsNumber 5)
    = orDefault (getProperty "count" (Object o2)) (JsNumber 5) ->
  orDefault (getProperty "start" (Object o1)) (JsNumber 1)
    = orDefault (getProperty "start" (Object o2)) (JsNumber 1) ->
  (name = "google_web_search" ->
   orDefault (getProperty "site" (Object o1)) (JsString "")
     = orDefault (getProperty "site" (Object o2)) (JsString "")) ->
  callToolHandler env name (Object o1) w = callToolHandler env name (Object o2) w.
Proof.
  intros Hq Hcount Hstart Hsite.
  destruct (guards_depend_on_query o1 o2 Hq) as (Hweb & Himage & Hquery).
  unfold callToolHandler, callToolBody. simpl falsy. cbn iota.
  rewrite Hweb, Himage, Hquery, Hcount, Hstart.
  destruct (String.eqb_spec name "google_web_search") as [Hname|_]; [|done].
  by rewrite (Hsite Hname).
Qed.

(** X6.  The handler reads [query], [count], [start] and, for a web
    search, [site], and nothing else: giving any other property any
    value changes neither the result nor the state.  An image search
    ignores [site]. *)
Theorem unread_properties_ignored env (name : string) (o : gmap string JsValue)
    (k : string) (v : JsValue) w :
  k <> "query" -> k <> "count" -> k <> "start" ->
  (name = "google_web_search" -> k <> "site") ->
  callToolHandler env name (Object (<[k:=v]> o)) w = callToolHandler env name (Object o) w.
Proof.
  intros Hquery Hcount Hstart Hsite.
  apply callToolHandler_reads; cbn [getProperty].
  - by rewrite lookup_insert_ne.
  - by rewrite lookup_insert_ne.
  - by rewrite lookup_insert_ne.
  - intros Hname. rewrite lookup_insert_ne; [done | by apply Hsite].
Qed.

(** X7.  The defaults the schemas declare are the defaults the handler
    applies: for each listed tool and each property of its schema that
    has a default, a bag that leaves the property out is treated exactly
    like the bag that gives it the declared default. *)
Theorem schema_defaults_applied env (tool : Tool.t) (k : string)
    (p : SchemaProperty.t) (d : JsValue) (o : gmap string JsValue) w :
  tool ∈ listToolsHandler ->
  (k, p) ∈ InputSchema.properties (Tool.inputSchema tool) ->
  SchemaProperty.default p = Some d ->
  o !! k = None ->
  callToolHandler env (Tool.name tool) (Object (<[k:=d]> o)) w
    = callToolHandler env (Tool.name tool) (Object o) w.
Proof.
  intros Htool Hprop Hdefault Hnone.
  unfold listToolsHandler in Htool.
  apply elem_of_cons in Htool as [->|Htool];
    [|apply elem_of_cons in Htool as [->|Htool]; [|by apply elem_of_nil in Htool]].
  all: simpl in Hprop;
    repeat (apply elem_of_cons in Hprop as [Hprop|Hprop];
            [injection Hprop as -> ->; simpl in Hdefault; try discriminate;
             injection Hdefault as <-|]);
    try (by apply elem_of_nil in Hprop).
  all: apply callToolHandler_reads; cbn [getProperty Tool.name WEB_SEARCH_TOOL IMAGE_SEARCH_TOOL];
    rewrite ?lookup_insert_eq, ?lookup_insert_ne, ?Hnone by done; try done.
Qed.

End ArgumentsRead.

(** A property the handler does not read, at the bag with a site. *)
Lemma unread_properties_ignored_witness :
  @callToolHandler exampleRuntime (exampleEnv (mkClock 0 0) None)
    "google_image_search" (Object bagSite) (freshWorld (mkClock 0 0))
  = @callToolHandler exampleRuntime (exampleEnv (mkClock 0 0) None)
      "google_image_search" (Object {["query" := JsString "foo"]}) (freshWorld (mkClock 0 0)).
Proof.
  apply (@unread_properties_ignored exampleRuntime (exampleEnv (mkClock 0 0) None)
           "google_image_search" {["query" := JsString "foo"]} "site"
           (JsString "example.com") (freshWorld (mkClock 0 0))); discriminate.
Defined.

(** The declared default of [count], at a bag that gives only a query. *)
Lemma schema_defaults_applied_witness :
  @callToolHandler exampleRuntime (exampleEnv (mkClock 0 0) None)
    "google_web_search"
    (Object (<["count" := JsNumber 5]> {["query" := JsString "foo"]}))
    (freshWorld (mkClock 0 0))
  = @callToolHandler exampleRuntime (exampleEnv (mkClock 0 0) None)
      "google_web_search" (Object {["query" := JsString "foo"]}) (freshWorld (mkClock 0 0)).
Proof.
  apply (@schema_defaults_applied exampleRuntime (exampleEnv (mkClock 0 0) None)
           WEB_SEARCH_TOOL "count"
           {| SchemaProperty.type := "number";
              SchemaProperty.description := "Number of results (1-10, default 5)";
              SchemaProperty.default := Some (JsNumber 5) |}
           (JsNumber 5) {["query" := JsString "foo"]} (freshWorld (mkClock 0 0))).
  - apply elem_of_cons. by left.
  - simpl. apply elem_of_cons. right. apply elem_of_cons. by left.
  - reflexivity.
  - reflexivity.
Defined.

(** ** Descriptors against the handler *)

Lemma typeof_string_iff (v : JsValue) :
  typeof (Primitive v) = "string" <-> exists s, v = JsString s.
Proof.
  split; [|by intros [s ->]].
  destruct v; try discriminate. intros _. by eexists.
Qed.

Lemma required_query (schema : InputSchema.t) (o : gmap string JsValue)
    (p : SchemaProperty.t) :
  (forall p', ("query", p') ∈ InputSchema.properties schema -> p' = p) ->
  ("query", p) ∈ InputSchema.properties schema ->
  SchemaProperty.type p = "string" ->
  InputSchema.required schema = ["query"] ->
  Forall (hasDeclaredType schema o) (InputSchema.required schema) <->
  exists s, o !! "query" = Some (JsString s).
Proof.
  intros Honly Hin Htype ->. rewrite Forall_singleton. unfold hasDeclaredType. split.
  - intros (v & p' & Hv & Hp' & Hty).
    rewrite (Honly p' Hp'), Htype in Hty.
    apply typeof_string_iff in Hty as [s ->]. by exists s.
  - intros [s Hs]. exists (JsString s), p. by rewrite Htype.
Qed.

(** X8.  Each guard enforces exactly the [required] list of its tool's
    schema: it accepts a bag if and only if every required property is
    there with the type the schema declares for it. *)
Theorem guards_enforce_required (o : gmap string JsValue) :
  (isGoogleWebSearchArgs (Object o) = true <->
   Forall (hasDeclaredType (Tool.inputSchema WEB_SEARCH_TOOL) o)
     (InputSchema.required (Tool.inputSchema WEB_SEARCH_TOOL))) /\
  (isGoogleImageSearchArgs (Object o) = true <->
   Forall (hasDeclaredType (Tool.inputSchema IMAGE_SEARCH_TOOL) o)
     (InputSchema.required (Tool.inputSchema IMAGE_SEARCH_TOOL))).
Proof.
  assert (Hobject :
            (exists o' s, Object o = Object o' /\ o' !! "query" = Some (JsString s)) <->
            (exists s, o !! "query" = Some (JsString s))).
  { split; [intros (o' & s & [= <-] & Hs); by exists s
           | intros [s Hs]; by exists o, s]. }
  split.
  - rewrite isGoogleWebSearchArgs_spec, Hobject. symmetry.
    apply (required_query _ o
             {| SchemaProperty.type := "string";
                SchemaProperty.description := "Search query";
                SchemaProperty.default := None |}); [| |reflexivity|reflexivity].
    + intros p' Hp'. simpl in Hp'.
      repeat (apply elem_of_cons in Hp' as [Hp'|Hp']; [by simplify_eq|]).
      by apply elem_of_nil in Hp'.
    + simpl. apply elem_of_cons. by left.
  - rewrite isGoogleImageSearchArgs_spec, Hobject. symmetry.
    apply (required_query _ o
             {| SchemaProperty.type := "string";
                SchemaProperty.description := "Image search query";
                SchemaProperty.default := None |}); [| |reflexivity|reflexivity].
    + intros p' Hp'. simpl in Hp'.
      repeat (apply elem_of_cons in Hp' as [Hp'|Hp']; [by simplify_eq|]).
      by apply elem_of_nil in Hp'.
    + simpl. apply elem_of_cons. by left.
Qed.

Lemma listed_iff_known (name : string) :
  name ∈ Tool.name <$> listToolsHandler <-> knownTool name = true.
Proof.
  unfold knownTool. simpl. rewrite orb_true_iff, !String.eqb_eq.
  rewrite elem_of_cons, list_elem_of_singleton. reflexivity.
Qed.

(** The body of the handler on a known tool ends in an error thrown or
    in a result that is no error. *)
Lemma callToolHandler_known `{JsRuntime} env name args w :
  knownTool name = true ->
  (exists e, (callToolHandler env name args w).1 = errorResult e) \/
  isError (callToolHandler env name args w).1 = false.
Proof.
  intros Hknown. unfold callToolHandler, tryCatch.
  destruct (callToolBody env name args w) as [[r|e] w'] eqn:Hbody; [|left; by exists e].
  right. pose proof (callToolBody_returns env name args w r w' Hbody) as Hret.
  by rewrite Hknown in Hret.
Qed.

(** X9.  The listing and the dispatch agree: the listing handler
    advertises two different names, and a call that comes with arguments
    is answered with the unknown-tool result exactly when its name is
    not one of them. *)
Theorem unknown_tool_iff_unlisted `{JsRuntime} env (name : string) (args : Unknown) w :
  falsy args = false ->
  NoDup (Tool.name <$> listToolsHandler) /\
  ((callToolHandler env name args w).1
     = {| text := "Unknown tool: " +:+ name; isError := true |} <->
   name ∉ Tool.name <$> listToolsHandler).
Proof.
  intros Hargs. split.
  - simpl. repeat constructor; [|apply not_elem_of_nil].
    intros Hin%list_elem_of_singleton. discriminate.
  - rewrite listed_iff_known. split.
    + intros Hresult Hknown.
      destruct (callToolHandler_known env name args w Hknown) as [[e He]|Hok].
      * rewrite He in Hresult. unfold errorResult in Hresult. discriminate.
      * by rewrite Hresult in Hok.
    + intros Hunknown%not_true_is_false.
      unfold knownTool in Hunknown. apply orb_false_elim in Hunknown as [Hweb Himage].
      unfold callToolHandler, callToolBody, tryCatch.
      by rewrite Hargs, Hweb, Himage.
Qed.

(** The agreement at a name close to a listed one. *)
Lemma unknown_tool_iff_unlisted_witness :
  (@callToolHandler exampleRuntime (exampleEnv (mkClock 0 0) None)
     "google_web_search " (Object bagSite) (freshWorld (mkClock 0 0))).1
  = {| text := "Unknown tool: google_web_search "; isError := true |}.
Proof.
  apply (@unknown_tool_iff_unlisted exampleRuntime (exampleEnv (mkClock 0 0) None)
           "google_web_search " (Object bagSite) (freshWorld (mkClock 0 0)) eq_refl).
  intros Hin%listed_iff_known. discriminate.
Defined.

(** ** The site token, failed calls, and credentials *)

Lemma prefix_append (a b : string) : String.prefix a (a +:+ b) = true.
Proof.
  induction a as [|c a IH]; simpl; [by destruct b|].
  by destruct (Ascii.ascii_dec c c).
Qed.

(** A text that holds the needle anywhere includes it. *)
Lemma includes_embedded (needle pre post : string) :
  includes needle (pre +:+ needle +:+ post) = true.
Proof.
  induction pre as [|c pre IH].
  - change ("" +:+ needle +:+ post) with (needle +:+ post).
    pose proof (prefix_append needle post) as Hprefix.
    destruct (needle +:+ post); cbn [includes]; by rewrite Hprefix.
  - change (String c pre +:+ needle +:+ post) with (String c (pre +:+ needle +:+ post)).
    cbn [includes]. rewrite IH. apply orb_true_r.
Qed.

Section CallsFurther.
Context `{JsRuntime}.

(** X10.  The site restriction is dropped whenever the characters
    [site:] occur anywhere in the query, be it inside a longer word:
    whatever [site] the bag gives, the request of an admitted web search
    then carries the query unchanged. *)
Theorem site_token_anywhere_drops_site env (o : gmap string JsValue)
    (pre post : string) (st : option Z) w :
  o !! "query" = Some (JsString (pre +:+ "site:" +:+ post)) ->
  o !! "start" = JsNumber <$> st ->
  (checkRateLimit (clock env) (requestCount w)).1 = Normal tt ->
  exists p,
    sent (callToolHandler env "google_web_search" (Object o) w).2 = p :: sent w /\
    q p = pre +:+ "site:" +:+ post.
Proof.
  intros Hq Hstart Hadmit.
  eexists. rewrite (callToolHandler_web env o _ w Hq), wrap_world.
  rewrite (getProperty_number o "start" st 1 Hstart).
  rewrite (performWebSearch_sends env _ _ _ _ (Number_toString (default 1 st))) by done.
  split; [reflexivity|]. cbn [q webParams].
  by rewrite includes_embedded, andb_false_r.
Qed.

(** X11.  A call that the limiter admits is counted even when the
    upstream call fails: if every request is answered with a failed
    connection or a non-success status, the result is an error, one
    request has been sent, and both counters stand one above what the
    window resets left. *)
Theorem failed_upstream_consumes_quota env (name : string) (o : gmap string JsValue)
    (query : string) (st : option Z) w :
  knownTool name = true ->
  o !! "query" = Some (JsString query) ->
  o !! "start" = JsNumber <$> st ->
  (checkRateLimit (clock env) (requestCount w)).1 = Normal tt ->
  (forall p, match fetch env p with
             | Throw _ => True
             | Normal response => ok response = false
             end) ->
  isError (callToolHandler env name (Object o) w).1 = true /\
  length (sent (callToolHandler env name (Object o) w).2) = S (length (sent w)) /\
  daily (requestCount (callToolHandler env name (Object o) w).2)
    = daily (resetWindows (clock env) (requestCount w)) + 1 /\
  second (requestCount (callToolHandler env name (Object o) w).2)
    = second (resetWindows (clock env) (requestCount w)) + 1.
Proof.
  intros Hknown Hq Hstart Hadmit Hdown. unfold knownTool in Hknown.
  pose proof Hadmit as [Hs Hd]%checkRateLimit_admits_iff.
  pose proof (checkRateLimit_admits _ _ Hs Hd) as Hstep.
  assert (Hstring : toString_method (JsNumber (default 1 st))
                    = Normal (Number_toString (default 1 st))) by done.
  destruct (String.eqb_spec name "google_web_search") as [->|_].
  - rewrite (callToolHandler_web env o query w Hq), performWebSearch_stages. cbv zeta.
    rewrite (getProperty_number o "start" st 1 Hstart), Hadmit, searchQueryOf_string.
    rewrite orDefault_idem. cbn [orDefault]. rewrite Hstring, Hstep. cbn [snd].
    match goal with |- context [fetch env ?p] => specialize (Hdown p);
      destruct (fetch env p) as [response|e] end.
    + unfold render. rewrite Hdown. simpl. done.
    + simpl. done.
  - simpl in Hknown. apply String.eqb_eq in Hknown as ->.
    rewrite (callToolHandler_image env o query w Hq), performImageSearch_stages. cbv zeta.
    rewrite (getProperty_number o "start" st 1 Hstart), Hadmit.
    rewrite orDefault_idem. cbn [orDefault]. rewrite Hstring, Hstep. cbn [snd].
    match goal with |- context [fetch env ?p] => specialize (Hdown p);
      destruct (fetch env p) as [response|e] end.
    + unfold render. rewrite Hdown. simpl. done.
    + simpl. done.
Qed.

(** X12.  No request leaves without credentials: when start-up has
    passed its two checks, every request a call sends carries the API
    key and the engine id of the process environment, and neither is
    empty. *)
Theorem requests_carry_credentials (vars : gmap string string) env
    (name : string) (args : Unknown) w (p : UpstreamParams) :
  startup vars = Started (GOOGLE_API_KEY env) (GOOGLE_CSE_ID env) ->
  sent (callToolHandler env name args w).2 = p :: sent w ->
  vars !! "GOOGLE_API_KEY" = Some (key p) /\
  vars !! "GOOGLE_CSE_ID" = Some (cx p) /\
  key p <> "" /\ cx p <> "".
Proof.
  intros Hstart Hsent. rewrite callToolHandler_world in Hsent.
  destruct (callToolBody_sent env name args w) as [Hnone|(p' & Hone & Hkey & Hcx & _)].
  { rewrite Hnone in Hsent. apply (f_equal length) in Hsent. simpl in Hsent. lia. }
  rewrite Hone in Hsent. injection Hsent as ->.
  rewrite Hkey, Hcx. clear -Hstart.
  unfold startup, process_env in Hstart.
  destruct (vars !! "GOOGLE_API_KEY") as [k|]; [|discriminate].
  cbn [ToBoolean ToString] in Hstart.
  destruct (String.eqb k "") eqn:Hk; [discriminate|].
  destruct (vars !! "GOOGLE_CSE_ID") as [c|]; [|discriminate].
  cbn [ToBoolean ToString negb] in Hstart.
  destruct (String.eqb c "") eqn:Hc; [discriminate|].
  cbn [negb] in Hstart. apply String.eqb_neq in Hk, Hc.
  injection Hstart as <- <-. done.
Qed.

End CallsFurther.

(** The site token inside a word, at query [my website: foo]. *)
Lemma site_token_anywhere_drops_site_witness :
  exists p,
    sent (@callToolHandler exampleRuntime (exampleEnv (mkClock 0 0) None)
            "google_web_search"
            (Object (<["site" := JsString "example.com"]>
                       {["query" := JsString "my website: foo"]}))
            (freshWorld (mkClock 0 0))).2
      = p :: [] /\
    q p = "my website: foo".
Proof.
  destruct (@site_token_anywhere_drops_site exampleRuntime (exampleEnv (mkClock 0 0) None)
              (<["site" := JsString "example.com"]> {["query" := JsString "my website: foo"]})
              "my web" " foo" None (freshWorld (mkClock 0 0)))
    as (p & Hsent & Hq).
  - vm_compute. reflexivity.
  - reflexivity.
  - reflexivity.
  - exists p. split; [exact Hsent | exact Hq].
Defined.

(** The count of a failed call, at an upstream that answers 403. *)
Lemma failed_upstream_consumes_quota_witness :
  isError (@callToolHandler exampleRuntime
             {| clock := mkClock 0 0; GOOGLE_API_KEY := "k"; GOOGLE_CSE_ID := "c";
                fetch := forbidden |}
             "google_web_search" (Object bagSite) (freshWorld (mkClock 0 0))).1 = true /\
  daily (requestCount
           (@callToolHandler exampleRuntime
              {| clock := mkClock 0 0; GOOGLE_API_KEY := "k"; GOOGLE_CSE_ID := "c";
                 fetch := forbidden |}
              "google_web_search" (Object bagSite) (freshWorld (mkClock 0 0))).2) = 1.
Proof.
  destruct (@failed_upstream_consumes_quota exampleRuntime
              {| clock := mkClock 0 0; GOOGLE_API_KEY := "k"; GOOGLE_CSE_ID := "c";
                 fetch := forbidden |}
              "google_web_search" bagSite "foo" None (freshWorld (mkClock 0 0)))
    as (Herr & _ & Hdaily & _).
  - reflexivity.
  - reflexivity.
  - reflexivity.
  - reflexivity.
  - intros p. reflexivity.
  - split; [exact Herr | exact Hdaily].
Defined.

(** The credentials of a request, at a process environment that has
    both. *)
Lemma requests_carry_credentials_witness :
  exampleVars !! "GOOGLE_API_KEY" = Some "k" /\ "k" <> "".
Proof.
  destruct (@requests_carry_credentials exampleRuntime exampleVars
              (exampleEnv (mkClock 0 0) None) "google_web_search" (Object bagSite)
              (freshWorld (mkClock 0 0))
              {| key := "k"; cx := "c"; q := "foo site:example.com"; num := "5";
                 start := "1"; searchType := None |})
    as (Hkey & _ & Hne & _).
  - reflexivity.
  - vm_compute. reflexivity.
  - split; [exact Hkey | exact Hne].
Defined.

(** ** A day of invocations *)

Section Serving.
Context `{JsRuntime}.

Lemma performWebSearch_step env query count start site w :
  requestCount (performWebSearch env query count start site w).2
    = (checkRateLimit (clock env) (requestCount w)).2 /\
  (sent (performWebSearch env query count start site w).2 = sent w \/
   (checkRateLimit (clock env) (requestCount w)).1 = Normal tt /\
   exists p, sent (performWebSearch env query count start site w).2 = p :: sent w).
Proof.
  split; [apply performWebSearch_counters|].
  rewrite performWebSearch_stages. cbv zeta.
  destruct (checkRateLimit (clock env) (requestCount w)).1 as [[]|]; [|by left].
  destruct (searchQueryOf _ _) as [sq|]; [|by left].
  destruct (toString_method _) as [st|]; [|by left].
  right. split; [done | by eexists].
Qed.

Lemma performImageSearch_step env query count start w :
  requestCount (performImageSearch env query count start w).2
    = (checkRateLimit (clock env) (requestCount w)).2 /\
  (sent (performImageSearch env query count start w).2 = sent w \/
   (checkRateLimit (clock env) (requestCount w)).1 = Normal tt /\
   exists p, sent (performImageSearch env query count start w).2 = p :: sent w).
Proof.
  split; [apply performImageSearch_counters|].
  rewrite performImageSearch_stages. cbv zeta.
  destruct (checkRateLimit (clock env) (requestCount w)).1 as [[]|]; [|by left].
  destruct (toString_method _) as [st|]; [|by left].
  right. split; [done | by eexists].
Qed.

(** What one invocation does to the world: nothing, or one check of the
    limiter and, if that check admits, at most one request. *)
Lemma callToolHandler_step env name args w :
  (callToolHandler env name args w).2 = w \/
  requestCount (callToolHandler env name args w).2
    = (checkRateLimit (clock env) (requestCount w)).2 /\
  (sent (callToolHandler env name args w).2 = sent w \/
   (checkRateLimit (clock env) (requestCount w)).1 = Normal tt /\
   exists p, sent (callToolHandler env name args w).2 = p :: sent w).
Proof.
  rewrite callToolHandler_world. unfold callToolBody, throw, ret.
  destruct (falsy args); [by left|].
  destruct (String.eqb name "google_web_search").
  - destruct (isGoogleWebSearchArgs args); simpl; [|by left].
    rewrite bind_world by done. right. apply performWebSearch_step.
  - destruct (String.eqb name "google_image_search"); [|by left].
    destruct (isGoogleImageSearchArgs args); simpl; [|by left].
    rewrite bind_world by done. right. apply performImageSearch_step.
Qed.

(** Within the stored day an invocation spends one unit of the daily
    counter for each request it sends. *)
Lemma callToolHandler_spends env name args w :
  withinCaps (requestCount w) ->
  sameDay (requestCount w) (clock env) ->
  withinCaps (requestCount (callToolHandler env name args w).2) /\
  lastDayReset (requestCount (callToolHandler env name args w).2)
    = lastDayReset (requestCount w) /\
  Z.of_nat (length (sent (callToolHandler env name args w).2))
    - daily (requestCount (callToolHandler env name args w).2)
    <= Z.of_nat (length (sent w)) - daily (requestCount w).
Proof.
  intros Hcaps Hday.
  destruct (resetWindows_sameDay (clock env) (requestCount w) Hday) as [Hd Hstamp].
  destruct (callToolHandler_step env name args w) as [->|[Hrc Hsent]];
    [split; [done | split; [done | lia]]|].
  rewrite Hrc. split; [by apply checkRateLimit_withinCaps|].
  destruct (Z.lt_ge_cases (second (resetWindows (clock env) (requestCount w)))
              RATE_LIMIT.perSecond) as [Hlt|Hge];
    [destruct (Z.lt_ge_cases (daily (resetWindows (clock env) (requestCount w)))
                 RATE_LIMIT.perDay) as [Hlt'|Hge'] |].
  1: rewrite checkRateLimit_admits in * by assumption.
  2,3: rewrite checkRateLimit_rejects in * by lia.
  all: cbn [fst snd daily lastDayReset] in *; split; [congruence|].
  all: destruct Hsent as [->|[Hadmit [p ->]]]; try discriminate; simpl length; lia.
Qed.

(** X13.  The limiter does its job for the upstream: during one day the
    server sends no more requests than the daily cap leaves, however
    many invocations arrive, whatever they ask and whatever the upstream
    answers. *)
Theorem daily_upstream_budget (calls : list Call) (w : World) :
  withinCaps (requestCount w) ->
  Forall (fun c => sameDay (requestCount w) (clock (call_env c))) calls ->
  Z.of_nat (length (sent (serve calls w).2)) + daily (requestCount w)
    <= Z.of_nat (length (sent w)) + RATE_LIMIT.perDay.
Proof.
  intros Hcaps Hday.
  assert (Hinv : withinCaps (requestCount (serve calls w).2) /\
                 Z.of_nat (length (sent (serve calls w).2))
                   - daily (requestCount (serve calls w).2)
                   <= Z.of_nat (length (sent w)) - daily (requestCount w)).
  { revert w Hcaps Hday. induction calls as [|c calls IH]; intros w Hcaps Hday.
    - simpl. split; [done | lia].
    - apply Forall_cons in Hday as [Hc Hrest].
      destruct (callToolHandler_spends (call_env c) (call_name c) (call_args c) w Hcaps Hc)
        as (Hcaps1 & Hstamp & Hspent).
      cbn [serve].
      destruct (callToolHandler (call_env c) (call_name c) (call_args c) w) as [r w1].
      cbn [snd] in *.
      destruct (IH w1 Hcaps1) as [Hcaps2 Hspent2].
      { eapply Forall_impl; [exact Hrest|]. intros c'. by apply sameDay_stamp. }
      destruct (serve calls w1) as [rs w2]. cbn [snd] in *.
      split; [done | lia]. }
  destruct Hinv as [[_ [_ Hcap]] Hspent]. lia.
Qed.

End Serving.

(** The budget at a day of 150 web searches two seconds apart: no more
    than a hundred requests leave. *)
Lemma daily_upstream_budget_witness :
  Z.of_nat (length (sent (@serve exampleRuntime
                            (map (fun c => mkCall (exampleEnv c None) "google_web_search"
                                             (Object bagSite))
                                 (ticks 150 2000 2000 0))
                            (freshWorld (mkClock 0 0))).2))
    <= 100.
Proof.
  pose proof (@daily_upstream_budget exampleRuntime
                (map (fun c => mkCall (exampleEnv c None) "google_web_search" (Object bagSite))
                     (ticks 150 2000 2000 0))
                (freshWorld (mkClock 0 0))) as Hthm.
  simpl sent in Hthm at 2. simpl daily in Hthm. apply Hthm.
  - apply withinCaps_init.
  - apply Forall_forall. intros c Hc. apply list_elem_of_In, in_map_iff in Hc
      as (c' & <- & Hc'). unfold sameDay. simpl.
    assert (Hall : forall n a s c', In c' (ticks n a s 0) -> todayStart c' <= 0).
    { clear. induction n as [|n IH]; intros a s c' Hin; [destruct Hin|].
      destruct Hin as [<- | Hin]; [simpl; lia | eapply IH; exact Hin]. }
    eapply Hall. exact Hc'.
Defined.

(** ** Reading the rendered text back *)

Lemma Forall_imap_length {A B} (f : nat -> A -> list B) (m : nat) (l : list A) :
  (forall i x, length (f i x) = m) ->
  Forall (fun b => length b = m) (imap f l).
Proof.
  revert f. induction l as [|x l IH]; intros f Hf; [constructor|].
  rewrite imap_cons. constructor; [apply Hf | apply IH]. intros i y. apply Hf.
Qed.

(** In a layout of blocks of [m] lines each, line [j] of block [k]
    stands at position [k * (m + 1) + j]. *)
Lemma blankSeparated_lookup (m : nat) (blocks : list (list string)) :
  Forall (fun b => length b = m) blocks ->
  forall k b j,
    blocks !! k = Some b -> (j < m)%nat ->
    blankSeparated blocks !! (k * (m + 1) + j)%nat = b !! j.
Proof.
  induction 1 as [|b0 rest Hb0 Hrest IH]; intros k b j Hk Hj; [done|].
  destruct rest as [|b1 rest].
  - destruct k as [|k]; [|done]. simpl in Hk. injection Hk as <-. done.
  - change (blankSeparated (b0 :: b1 :: rest))
      with (b0 ++ EmptyString :: blankSeparated (b1 :: rest)).
    destruct k as [|k].
    + simpl in Hk. injection Hk as <-. simpl. apply lookup_app_l. lia.
    + simpl in Hk. rewrite lookup_app_r by lia.
      replace (S k * (m + 1) + j - length b0)%nat with (S (k * (m + 1) + j)) by lia.
      simpl. by apply IH.
Qed.

Lemma blankSeparated_length (m : nat) (blocks : list (list string)) :
  Forall (fun b => length b = m) blocks -> blocks <> [] ->
  (length (blankSeparated blocks) + 1 = length blocks * (m + 1))%nat.
Proof.
  induction 1 as [|b0 rest Hb0 Hrest IH]; intros Hne; [done|].
  destruct rest as [|b1 rest]; [simpl; lia|].
  change (blankSeparated (b0 :: b1 :: rest))
    with (b0 ++ EmptyString :: blankSeparated (b1 :: rest)).
  rewrite length_app. cbn [length] in *. specialize (IH ltac:(done)). lia.
Qed.

(** X14.  The rendered text can be read back by line number.  When no
    field holds a line feed, the text of a web search has 4n - 1 lines
    for n items, and item k (from 0) has its title line at line 4k, its
    description at 4k + 1 and its URL at 4k + 2; the text of an image
    search has 5n - 1 lines, with the thumbnail line of item k at
    line 5k + 3. *)
Theorem rendered_lines_by_number (its : list Item) (k : nat) (item : Item) :
  Forall oneLineItem its ->
  its !! k = Some item ->
  (length (lines (formatItems webBlock its)) + 1 = 4 * length its)%nat /\
  (length (lines (formatItems imageBlock its)) + 1 = 5 * length its)%nat /\
  lines (formatItems webBlock its) !! (4 * k)%nat = Some (titleLine k item) /\
  lines (formatItems webBlock its) !! (4 * k + 1)%nat
    = Some ("Description: " +:+ ToString (snippet item)) /\
  lines (formatItems webBlock its) !! (4 * k + 2)%nat
    = Some ("URL: " +:+ ToString (link item)) /\
  lines (formatItems imageBlock its) !! (5 * k)%nat = Some (titleLine k item) /\
  lines (formatItems imageBlock its) !! (5 * k + 3)%nat = Some (thumbnailLine item).
Proof.
  intros Hall Hk.
  assert (Hne : its <> []) by (intros ->; done).
  rewrite (lines_formatItems webBlock webLines), (lines_formatItems imageBlock imageLines);
    [| apply lines_imageBlock | done | done | apply lines_webBlock | done | done].
  pose proof (Forall_imap_length webLines 3 its (fun _ _ => eq_refl)) as Hweb.
  pose proof (Forall_imap_length imageLines 4 its (fun _ _ => eq_refl)) as Himage.
  assert (Hwebk : imap webLines its !! k = Some (webLines k item))
    by (by rewrite list_lookup_imap, Hk).
  assert (Himagek : imap imageLines its !! k = Some (imageLines k item))
    by (by rewrite list_lookup_imap, Hk).
  assert (Hnew : imap webLines its <> []) by (by destruct its).
  assert (Hnei : imap imageLines its <> []) by (by destruct its).
  pose proof (blankSeparated_length 3 _ Hweb Hnew) as Hlw.
  pose proof (blankSeparated_length 4 _ Himage Hnei) as Hli.
  rewrite length_imap in Hlw, Hli.
  split; [lia|]. split; [lia|].
  pose proof (blankSeparated_lookup 3 _ Hweb k _ 0 Hwebk ltac:(lia)) as Hw0.
  pose proof (blankSeparated_lookup 3 _ Hweb k _ 1 Hwebk ltac:(lia)) as Hw1.
  pose proof (blankSeparated_lookup 3 _ Hweb k _ 2 Hwebk ltac:(lia)) as Hw2.
  pose proof (blankSeparated_lookup 4 _ Himage k _ 0 Himagek ltac:(lia)) as Hi0.
  pose proof (blankSeparated_lookup 4 _ Himage k _ 3 Himagek ltac:(lia)) as Hi3.
  replace (k * (3 + 1) + 0)%nat with (4 * k)%nat in Hw0 by lia.
  replace (k * (3 + 1) + 1)%nat with (4 * k + 1)%nat in Hw1 by lia.
  replace (k * (3 + 1) + 2)%nat with (4 * k + 2)%nat in Hw2 by lia.
  replace (k * (4 + 1) + 0)%nat with (5 * k)%nat in Hi0 by lia.
  replace (k * (4 + 1) + 3)%nat with (5 * k + 3)%nat in Hi3 by lia.
  repeat split; assumption.
Qed.

(** The line numbers at the second of two items. *)
Lemma rendered_lines_by_number_witness :
  lines (formatItems webBlock [itemA; itemB]) !! 4%nat = Some "[2] Title: B" /\
  lines (formatItems imageBlock [itemA; itemB]) !! 8%nat
    = Some "Thumbnail: https://b.example/t.png".
Proof.
  destruct (rendered_lines_by_number [itemA; itemB] 1 itemB)
    as (_ & _ & Htitle & _ & _ & _ & Hthumb).
  - repeat constructor.
  - reflexivity.
  - split; [exact Htitle | exact Hthumb].
Defined.

(** ** The limiter lets go *)

(** X15.  The limiter cannot stay shut once the clock moves on: a check
    that comes more than 1000 ms after the stored window start is
    admitted whenever the day has changed or the daily counter is below
    its cap, whatever else the counters hold; it leaves the second
    counter at 1 and the window start at its own time. *)
Theorem limiter_recovers (c : Clock) (rc : RequestCount) :
  Date_now c - lastSecondReset rc > 1000 ->
  todayStart c > lastDayReset rc \/ daily rc < RATE_LIMIT.perDay ->
  (checkRateLimit c rc).1 = Normal tt /\
  second (checkRateLimit c rc).2 = 1 /\
  lastSecondReset (checkRateLimit c rc).2 = Date_now c.
Proof.
  intros Hlate Hroom.
  assert (Hreset : second (resetWindows c rc) = 0 /\
                   lastSecondReset (resetWindows c rc) = Date_now c /\
                   daily (resetWindows c rc) < RATE_LIMIT.perDay).
  { cases_windows; unfold RATE_LIMIT.perDay in *; lia. }
  destruct Hreset as (Hzero & Hnow & Hday).
  rewrite checkRateLimit_admits by (rewrite ?Hzero; unfold RATE_LIMIT.perSecond; lia).
  cbn [fst snd second lastSecondReset]. repeat split; [lia | exact Hnow].
Qed.

(** The recovery at the state a full burst leaves, two seconds later. *)
Lemma limiter_recovers_witness :
  (checkRateLimit (mkClock 2600 0)
     (checkAll (ticks 6 100 100 0) (requestCount_init (mkClock 0 0))).2).1
    = Normal tt.
Proof.
  refine (proj1 (limiter_recovers (mkClock 2600 0)
                   (checkAll (ticks 6 100 100 0) (requestCount_init (mkClock 0 0))).2 _ _)).
  - vm_compute. reflexivity.
  - right. vm_compute. reflexivity.
Defined.

(** * The handler on arbitrary JSON arguments *)

(** ** Agreement with the handler on primitive bags *)

Section JsonAgreement.
Context `{JsRuntime} `{JsDoubles}.

Lemma Json_getProperty_ofUnknown k a :
  Json.getProperty k (ofUnknown a) = JPrim (getProperty k a).
Proof.
  destruct a as [v|o]; [done|]. simpl. rewrite lookup_fmap.
  by destruct (o !! k).
Qed.

Lemma Json_orDefault_prim v d :
  Json.orDefault (JPrim v) (JPrim d) = JPrim (orDefault v d).
Proof. by destruct v. Qed.

Lemma Json_guards_ofUnknown a :
  Json.isGoogleWebSearchArgs (ofUnknown a) = isGoogleWebSearchArgs a /\
  Json.isGoogleImageSearchArgs (ofUnknown a) = isGoogleImageSearchArgs a.
Proof.
  unfold Json.isGoogleWebSearchArgs, Json.isGoogleImageSearchArgs,
    isGoogleWebSearchArgs, isGoogleImageSearchArgs, Json.typeof_string.
  rewrite Json_getProperty_ofUnknown.
  destruct a as [v|o]; [by destruct v|]. simpl. rewrite lookup_fmap.
  destruct (o !! "query") as [v|]; [|done]. by destruct v.
Qed.

Lemma Json_falsy_ofUnknown a : Json.falsy (ofUnknown a) = falsy a.
Proof. by destruct a. Qed.

Lemma Json_searchQueryOf_prim query site :
  Json.searchQueryOf (JPrim query) (JPrim site) = searchQueryOf query site.
Proof.
  unfold Json.searchQueryOf, searchQueryOf. simpl.
  destruct (ToBoolean site); [|done].
  destruct (includes_method query "site:") as [[|]|]; done.
Qed.

Lemma Json_webRequest_prim env query count start site :
  Json.webRequest env (JPrim query) (JPrim count) (JPrim start) (JPrim site) =
    match searchQueryOf query site with
    | Throw t => Throw t
    | Normal searchQuery =>
        match toString_method start with
        | Throw t => Throw t
        | Normal startText => Normal (webParams env searchQuery count startText)
        end
    end.
Proof.
  unfold Json.webRequest. rewrite Json_searchQueryOf_prim. simpl.
  destruct (searchQueryOf query site); [|done]. by destruct (toString_method start).
Qed.

Lemma Json_imageRequest_prim env query count start :
  Json.imageRequest env (JPrim query) (JPrim count) (JPrim start) =
    match toString_method start with
    | Throw t => Throw t
    | Normal startText => Normal (imageParams env query count startText)
    end.
Proof. unfold Json.imageRequest. simpl. by destruct (toString_method start). Qed.

(** A search on JSON arguments, stage by stage. *)
Lemma Json_performWebSearch_stages env query count start site w :
  Json.performWebSearch env query count start site w =
    match (checkRateLimit (clock env) (requestCount w)).1 with
    | Throw t =>
        (Throw t, {| requestCount := (checkRateLimit (clock env) (requestCount w)).2;
                     sent := sent w |})
    | Normal _ =>
        match Json.webRequest env query
                (Json.orDefault count (JPrim (JsNumber 5)))
                (Json.orDefault start (JPrim (JsNumber 1)))
                (Json.orDefault site (JPrim (JsString ""))) with
        | Throw t =>
            (Throw t, {| requestCount := (checkRateLimit (clock env) (requestCount w)).2;
                         sent := sent w |})
        | Normal p =>
            (match fetch env p with
             | Throw t => Throw t
             | Normal response =>
                 render "No results found for your query." webBlock response
             end,
             {| requestCount := (checkRateLimit (clock env) (requestCount w)).2;
                sent := p :: sent w |})
        end
    end.
Proof.
  unfold Json.performWebSearch, bind, lift, checkRateLimitM, fetchM.
  destruct (checkRateLimit (clock env) (requestCount w)) as [[[]|t] rc]; simpl; [|done].
  destruct (Json.webRequest _ _ _ _ _) as [p|t]; simpl; [|done].
  by destruct (fetch env p).
Qed.

Lemma Json_performImageSearch_stages env query count start w :
  Json.performImageSearch env query count start w =
    match (checkRateLimit (clock env) (requestCount w)).1 with
    | Throw t =>
        (Throw t, {| requestCount := (checkRateLimit (clock env) (requestCount w)).2;
                     sent := sent w |})
    | Normal _ =>
        match Json.imageRequest env query
                (Json.orDefault count (JPrim (JsNumber 5)))
                (Json.orDefault start (JPrim (JsNumber 1))) with
        | Throw t =>
            (Throw t, {| requestCount := (checkRateLimit (clock env) (requestCount w)).2;
                         sent := sent w |})
        | Normal p =>
            (match fetch env p with
             | Throw t => Throw t
             | Normal response =>
                 render "No image results found for your query." imageBlock response
             end,
             {| requestCount := (checkRateLimit (clock env) (requestCount w)).2;
                sent := p :: sent w |})
        end
    end.
Proof.
  unfold Json.performImageSearch, bind, lift, checkRateLimitM, fetchM.
  destruct (checkRateLimit (clock env) (requestCount w)) as [[[]|t] rc]; simpl; [|done].
  destruct (Json.imageRequest _ _ _ _) as [p|t]; simpl; [|done].
  by destruct (fetch env p).
Qed.

Lemma Json_performWebSearch_prim env query count start site w :
  Json.performWebSearch env (JPrim query) (JPrim count) (JPrim start) (JPrim site) w
    = performWebSearch env query count start site w.
Proof.
  rewrite Json_performWebSearch_stages, performWebSearch_stages. cbv zeta.
  rewrite !Json_orDefault_prim, Json_webRequest_prim.
  destruct (checkRateLimit (clock env) (requestCount w)).1; [|done].
  destruct (searchQueryOf query _); [|done]. by destruct (toString_method _).
Qed.

Lemma Json_performImageSearch_prim env query count start w :
  Json.performImageSearch env (JPrim query) (JPrim count) (JPrim start) w
    = performImageSearch env query count start w.
Proof.
  rewrite Json_performImageSearch_stages, performImageSearch_stages. cbv zeta.
  rewrite !Json_orDefault_prim, Json_imageRequest_prim.
  destruct (checkRateLimit (clock env) (requestCount w)).1; [|done].
  by destruct (toString_method _).
Qed.

(** On a bag of primitives the handler on JSON arguments is the handler
    on primitive bags. *)
Lemma Json_callToolHandler_ofUnknown env name args w :
  Json.callToolHandler env name (ofUnknown args) w = callToolHandler env name args w.
Proof.
  destruct (Json_guards_ofUnknown args) as [Hweb Himage].
  unfold Json.callToolHandler, callToolHandler, Json.callToolBody, callToolBody,
    Json.queryOf, Json.countOf, Json.startOf, Json.siteOf.
  rewrite Json_falsy_ofUnknown, Hweb, Himage, !Json_getProperty_ofUnknown,
    !Json_orDefault_prim.
  unfold tryCatch.
  destruct (falsy args); [done|].
  destruct (String.eqb name "google_web_search").
  { destruct (isGoogleWebSearchArgs args); [|done]. cbn [negb]. unfold bind.
    by rewrite Json_performWebSearch_prim. }
  destruct (String.eqb name "google_image_search"); [|done].
  destruct (isGoogleImageSearchArgs args); [|done]. cbn [negb]. unfold bind.
  by rewrite Json_performImageSearch_prim.
Qed.

End JsonAgreement.

(** ** When the conversions return *)

Section JsonConversions.
Context `{JsRuntime} `{JsDoubles}.

(** String conversion returns exactly on the convertible values. *)
Lemma Json_ToString_returns : forall v, returned (Json.ToString v) = Json.convertible v.
Proof.
  fix IH 1. intros [p|x|l|o]; simpl.
  - reflexivity.
  - reflexivity.
  - set (join := fix join (l : list JsonValue) : Completion string := _).
    set (all := fix all (l : list JsonValue) : bool := _).
    assert (Hjoin : forall e rest,
              join (e :: rest) =
                match (match e with
                       | JPrim JsUndefined | JPrim JsNull => Normal ""
                       | _ => Json.ToString e
                       end) with
                | Throw t => Throw t
                | Normal a =>
                    match rest with
                    | [] => Normal a
                    | _ :: _ =>
                        match join rest with
                        | Throw t => Throw t
                        | Normal b => Normal (a +:+ "," +:+ b)
                        end
                    end
                end) by reflexivity.
    assert (Hall : forall e rest, all (e :: rest) = Json.convertible e && all rest)
      by reflexivity.
    assert (Hjoin0 : join [] = Normal "") by reflexivity.
    assert (Hall0 : all [] = true) by reflexivity.
    clearbody join all.
    induction l as [|e rest IHl]; [by rewrite Hjoin0, Hall0|].
    rewrite Hjoin, Hall.
    assert (He : returned (match e with
                           | JPrim JsUndefined | JPrim JsNull => Normal ""
                           | _ => Json.ToString e
                           end) = Json.convertible e).
    { rewrite <- (IH e). destruct e as [[]| | |]; reflexivity. }
    destruct (match e with
              | JPrim JsUndefined | JPrim JsNull => Normal ""
              | _ => Json.ToString e
              end) as [a|t]; simpl in He; rewrite <- He; simpl; [|reflexivity].
    destruct rest as [|e' rest']; [by rewrite Hall0|].
    rewrite <- IHl. by destruct (join (e' :: rest')).
  - by destruct (bool_decide _).
Qed.

Lemma Json_toString_method_returns v :
  returned (Json.toString_method v) = Json.callable_toString v.
Proof.
  destruct v as [p|x|l|o].
  - by destruct p.
  - reflexivity.
  - apply (Json_ToString_returns (JArray l)).
  - simpl. by destruct (bool_decide _).
Qed.

Lemma Json_Math_min_returns v :
  returned (Json.Math_min_10_toString v) = Json.convertible v.
Proof.
  destruct v as [p|x|l|o]; try reflexivity.
  - rewrite <- (Json_ToString_returns (JArray l)). unfold Json.Math_min_10_toString.
    by destruct (Json.ToString (JArray l)).
  - rewrite <- (Json_ToString_returns (JObject o)). unfold Json.Math_min_10_toString.
    by destruct (Json.ToString (JObject o)).
Qed.

Lemma Json_searchQueryOf_returns (query : string) site :
  returned (Json.searchQueryOf (JPrim (JsString query)) site)
    = negb (Json.ToBoolean site) || includes "site:" query || Json.convertible site.
Proof.
  unfold Json.searchQueryOf. simpl.
  destruct (Json.ToBoolean site); [|reflexivity]. simpl.
  destruct (includes "site:" query); [reflexivity|]. simpl.
  rewrite <- Json_ToString_returns. by destruct (Json.ToString site).
Qed.

Lemma Json_webRequest_returns env (query : string) count start site :
  returned (Json.webRequest env (JPrim (JsString query)) count start site)
    = Json.sendableWeb query count start site.
Proof.
  unfold Json.webRequest, Json.sendableWeb.
  rewrite <- Json_searchQueryOf_returns, <- Json_Math_min_returns,
    <- Json_toString_method_returns.
  destruct (Json.searchQueryOf _ _); [|reflexivity].
  destruct (Json.Math_min_10_toString count); [|reflexivity].
  by destruct (Json.toString_method start).
Qed.

Lemma Json_imageRequest_returns env (query : string) count start :
  returned (Json.imageRequest env (JPrim (JsString query)) count start)
    = Json.sendableImage count start.
Proof.
  unfold Json.imageRequest, Json.sendableImage.
  rewrite <- Json_Math_min_returns, <- Json_toString_method_returns. simpl.
  destruct (Json.Math_min_10_toString count); [|reflexivity].
  by destruct (Json.toString_method start).
Qed.

(** What a request that was built carries. *)
Lemma Json_webRequest_fields env query countValue startValue site p :
  Json.webRequest env query countValue startValue site = Normal p ->
  key p = GOOGLE_API_KEY env /\ cx p = GOOGLE_CSE_ID env /\
  Json.searchQueryOf query site = Normal (q p) /\
  Json.Math_min_10_toString countValue = Normal (num p) /\
  Json.toString_method startValue = Normal (start p) /\
  searchType p = None.
Proof.
  unfold Json.webRequest.
  destruct (Json.searchQueryOf query site); [|discriminate].
  destruct (Json.Math_min_10_toString countValue); [|discriminate].
  destruct (Json.toString_method startValue); [|discriminate].
  intros [= <-]. by repeat split.
Qed.

Lemma Json_imageRequest_fields env query countValue startValue p :
  Json.imageRequest env query countValue startValue = Normal p ->
  key p = GOOGLE_API_KEY env /\ cx p = GOOGLE_CSE_ID env /\
  Json.ToString query = Normal (q p) /\
  Json.Math_min_10_toString countValue = Normal (num p) /\
  Json.toString_method startValue = Normal (start p) /\
  searchType p = Some "image".
Proof.
  unfold Json.imageRequest.
  destruct (Json.ToString query); [|discriminate].
  destruct (Json.Math_min_10_toString countValue); [|discriminate].
  destruct (Json.toString_method startValue); [|discriminate].
  intros [= <-]. by repeat split.
Qed.

End JsonConversions.

(** ** Dispatch on JSON arguments *)

Section JsonDispatch.
Context `{JsRuntime} `{JsDoubles}.

(** The guards look at [query] only. *)
Lemma Json_guards_accept (fields : gmap string JsonValue) (query : string) :
  fields !! "query" = Some (JPrim (JsString query)) ->
  Json.isGoogleWebSearchArgs (JObject fields) = true /\
  Json.isGoogleImageSearchArgs (JObject fields) = true.
Proof.
  intros Hq.
  unfold Json.isGoogleWebSearchArgs, Json.isGoogleImageSearchArgs, Json.typeof_string.
  simpl. rewrite Hq. done.
Qed.

Lemma Json_orDefault_idem v d : Json.orDefault (Json.orDefault v d) d = Json.orDefault v d.
Proof. destruct v as [[]| | |]; try done. by destruct d as [[]| | |]. Qed.

Lemma Json_callToolHandler_web env (fields : gmap string JsonValue) (query : string) w :
  fields !! "query" = Some (JPrim (JsString query)) ->
  Json.callToolHandler env "google_web_search" (JObject fields) w =
    wrap (Json.performWebSearch env (JPrim (JsString query))
            (Json.countOf (JObject fields)) (Json.startOf (JObject fields))
            (Json.siteOf (JObject fields)) w).
Proof.
  intros Hq. destruct (Json_guards_accept fields query Hq) as [Hweb _].
  unfold Json.callToolHandler, Json.callToolBody, tryCatch.
  change (Json.falsy (JObject fields)) with false. cbn iota.
  change (String.eqb "google_web_search" "google_web_search") with true. cbn iota.
  rewrite Hweb. cbn [negb]. cbn iota.
  unfold Json.queryOf. simpl Json.getProperty at 1. rewrite Hq. simpl default.
  unfold bind, ret, wrap.
  by destruct (Json.performWebSearch _ _ _ _ _ w) as [[results|e] w'].
Qed.

Lemma Json_callToolHandler_image env (fields : gmap string JsonValue) (query : string) w :
  fields !! "query" = Some (JPrim (JsString query)) ->
  Json.callToolHandler env "google_image_search" (JObject fields) w =
    wrap (Json.performImageSearch env (JPrim (JsString query))
            (Json.countOf (JObject fields)) (Json.startOf (JObject fields)) w).
Proof.
  intros Hq. destruct (Json_guards_accept fields query Hq) as [_ Himage].
  unfold Json.callToolHandler, Json.callToolBody, tryCatch.
  change (Json.falsy (JObject fields)) with false. cbn iota.
  change (String.eqb "google_image_search" "google_web_search") with false. cbn iota.
  change (String.eqb "google_image_search" "google_image_search") with true. cbn iota.
  rewrite Himage. cbn [negb]. cbn iota.
  unfold Json.queryOf. simpl Json.getProperty at 1. rewrite Hq. simpl default.
  unfold bind, ret, wrap.
  by destruct (Json.performImageSearch _ _ _ _ w) as [[results|e] w'].
Qed.

(** The search functions leave the counters as the limiter left them. *)
Lemma Json_performWebSearch_counters env query countValue startValue site w :
  requestCount (Json.performWebSearch env query countValue startValue site w).2 =
    (checkRateLimit (clock env) (requestCount w)).2.
Proof.
  rewrite Json_performWebSearch_stages.
  destruct (checkRateLimit (clock env) (requestCount w)).1; [|done].
  by destruct (Json.webRequest _ _ _ _ _).
Qed.

Lemma Json_performImageSearch_counters env query countValue startValue w :
  requestCount (Json.performImageSearch env query countValue startValue w).2 =
    (checkRateLimit (clock env) (requestCount w)).2.
Proof.
  rewrite Json_performImageSearch_stages.
  destruct (checkRateLimit (clock env) (requestCount w)).1; [|done].
  by destruct (Json.imageRequest _ _ _ _).
Qed.

(** An admitted web search, by the outcome of building its request. *)
Lemma Json_web_admitted env (fields : gmap string JsonValue) (query : string) w :
  fields !! "query" = Some (JPrim (JsString query)) ->
  (checkRateLimit (clock env) (requestCount w)).1 = Normal tt ->
  Json.callToolHandler env "google_web_search" (JObject fields) w =
    match Json.webRequest env (JPrim (JsString query))
            (Json.countOf (JObject fields)) (Json.startOf (JObject fields))
            (Json.siteOf (JObject fields)) with
    | Throw e =>
        (errorResult e,
         {| requestCount := (checkRateLimit (clock env) (requestCount w)).2;
            sent := sent w |})
    | Normal p =>
        wrap (match fetch env p with
              | Throw t => Throw t
              | Normal response =>
                  render "No results found for your query." webBlock response
              end,
              {| requestCount := (checkRateLimit (clock env) (requestCount w)).2;
                 sent := p :: sent w |})
    end.
Proof.
  intros Hq Hadmit. rewrite (Json_callToolHandler_web env fields query w Hq).
  rewrite Json_performWebSearch_stages, Hadmit.
  unfold Json.countOf, Json.startOf, Json.siteOf. rewrite !Json_orDefault_idem.
  by destruct (Json.webRequest _ _ _ _ _).
Qed.

Lemma Json_image_admitted env (fields : gmap string JsonValue) (query : string) w :
  fields !! "query" = Some (JPrim (JsString query)) ->
  (checkRateLimit (clock env) (requestCount w)).1 = Normal tt ->
  Json.callToolHandler env "google_image_search" (JObject fields) w =
    match Json.imageRequest env (JPrim (JsString query))
            (Json.countOf (JObject fields)) (Json.startOf (JObject fields)) with
    | Throw e =>
        (errorResult e,
         {| requestCount := (checkRateLimit (clock env) (requestCount w)).2;
            sent := sent w |})
    | Normal p =>
        wrap (match fetch env p with
              | Throw t => Throw t
              | Normal response =>
                  render "No image results found for your query." imageBlock response
              end,
              {| requestCount := (checkRateLimit (clock env) (requestCount w)).2;
                 sent := p :: sent w |})
    end.
Proof.
  intros Hq Hadmit. rewrite (Json_callToolHandler_image env fields query w Hq).
  rewrite Json_performImageSearch_stages, Hadmit.
  unfold Json.countOf, Json.startOf. rewrite !Json_orDefault_idem.
  by destruct (Json.imageRequest _ _ _ _).
Qed.

End JsonDispatch.

(** ** Unchecked arguments *)

Section JsonClaims.
Context `{JsRuntime} `{JsDoubles}.

(** C4, as the code has it.  The guards of both tools accept a bag with
    a string query whatever it gives for [count] and [start], and the
    call goes on to the limiter: no range is checked.  When [count] and
    [start] are numbers (5 and 1 standing in for absent ones), [site],
    if given, is a string and the limiter admits the call, a request is
    sent that carries [num] = min(count, 10) and [start] unchanged: as
    plain decimal numerals for integers of magnitude below 2^53, as the
    runtime prints them for other numbers. *)
Theorem ranges_never_checked env (name : string) (fields : gmap string JsonValue)
    (query : string) w :
  name = "google_web_search" \/ name = "google_image_search" ->
  fields !! "query" = Some (JPrim (JsString query)) ->
  let args := JObject fields in
  let countValue := Json.orDefault (Json.getProperty "count" args) (JPrim (JsNumber 5)) in
  let startValue := Json.orDefault (Json.getProperty "start" args) (JPrim (JsNumber 1)) in
  let siteValue := Json.orDefault (Json.getProperty "site" args) (JPrim (JsString "")) in
  let after := (Json.callToolHandler env name args w).2 in
  Json.isGoogleWebSearchArgs args = true /\
  Json.isGoogleImageSearchArgs args = true /\
  requestCount after = (checkRateLimit (clock env) (requestCount w)).2 /\
  (Json.isNumber countValue -> Json.isNumber startValue ->
   Json.typeof_string siteValue = true ->
   (checkRateLimit (clock env) (requestCount w)).1 = Normal tt ->
   exists p,
     sent after = p :: sent w /\
     (forall n, countValue = JPrim (JsNumber n) -> num p = Number_toString (Z.min n 10)) /\
     (forall x, countValue = JDouble x -> num p = Double_min_10_toString x) /\
     (forall n, startValue = JPrim (JsNumber n) -> start p = Number_toString n) /\
     (forall x, startValue = JDouble x -> start p = Double_toString x)).
Proof.
  intros Hname Hq args countValue startValue siteValue after.
  destruct (Json_guards_accept fields query Hq) as [Hweb Himage].
  split; [exact Hweb | split; [exact Himage | split]].
  - subst after. destruct Hname as [-> | ->].
    + rewrite (Json_callToolHandler_web env fields query w Hq), wrap_world.
      apply Json_performWebSearch_counters.
    + rewrite (Json_callToolHandler_image env fields query w Hq), wrap_world.
      apply Json_performImageSearch_counters.
  - intros Hcount Hstart Hsite Hadmit.
    assert (Hc : Json.convertible countValue = true)
      by (destruct countValue as [[]| | |]; done).
    assert (Hs : Json.callable_toString startValue = true)
      by (destruct startValue as [[]| | |]; done).
    assert (Hv : Json.convertible siteValue = true)
      by (destruct siteValue as [[]| | |]; done).
    assert (Hfields : forall p : UpstreamParams,
              Json.Math_min_10_toString countValue = Normal (num p) ->
              Json.toString_method startValue = Normal (start p) ->
              (forall n, countValue = JPrim (JsNumber n) ->
                 num p = Number_toString (Z.min n 10)) /\
              (forall x, countValue = JDouble x -> num p = Double_min_10_toString x) /\
              (forall n, startValue = JPrim (JsNumber n) -> start p = Number_toString n) /\
              (forall x, startValue = JDouble x -> start p = Double_toString x)).
    { intros p Hnum Hst. repeat split; intros z Hz.
      - rewrite Hz in Hnum. by injection Hnum as <-.
      - rewrite Hz in Hnum. by injection Hnum as <-.
      - rewrite Hz in Hst. by injection Hst as <-.
      - rewrite Hz in Hst. by injection Hst as <-. }
    subst after. destruct Hname as [-> | ->].
    + rewrite (Json_web_admitted env fields query w Hq Hadmit).
      pose proof (Json_webRequest_returns env query countValue startValue siteValue)
        as Hret.
      unfold Json.sendableWeb in Hret. rewrite Hc, Hs, Hv, orb_true_r in Hret.
      fold args. change (Json.countOf args) with countValue.
      change (Json.startOf args) with startValue.
      change (Json.siteOf args) with siteValue.
      destruct (Json.webRequest env _ countValue startValue siteValue) as [p|e] eqn:Hreq;
        [|discriminate].
      apply Json_webRequest_fields in Hreq as (_ & _ & _ & Hnum & Hst & _).
      exists p. rewrite wrap_world. split; [reflexivity | by apply Hfields].
    + rewrite (Json_image_admitted env fields query w Hq Hadmit).
      pose proof (Json_imageRequest_returns env query countValue startValue) as Hret.
      unfold Json.sendableImage in Hret. rewrite Hc, Hs in Hret.
      fold args. change (Json.countOf args) with countValue.
      change (Json.startOf args) with startValue.
      destruct (Json.imageRequest env _ countValue startValue) as [p|e] eqn:Hreq;
        [|discriminate].
      apply Json_imageRequest_fields in Hreq as (_ & _ & _ & Hnum & Hst & _).
      exists p. rewrite wrap_world. split; [reflexivity | by apply Hfields].
Qed.

(** C10, as the code has it.  Both guards accept every bag whose
    [query] is a string, whatever else the bag holds, and the call
    reaches the limiter, which consumes quota whenever it admits.  Once
    admitted, a request is sent exactly when the conversions of the
    unchecked values return, and then it carries [num] as
    [Math.min(count, 10).toString()] and [start] as [start.toString()].
    They throw when [start] is [null], and when [count], [start] or an
    appended [site] is an object with a property named [toString] or an
    array holding such an object; then the error is returned after the
    quota has been consumed, and nothing is sent. *)
Theorem unchecked_values_reach_upstream env (fields : gmap string JsonValue)
    (query : string) w :
  fields !! "query" = Some (JPrim (JsString query)) ->
  let args := JObject fields in
  let countValue := Json.orDefault (Json.getProperty "count" args) (JPrim (JsNumber 5)) in
  let startValue := Json.orDefault (Json.getProperty "start" args) (JPrim (JsNumber 1)) in
  let siteValue := Json.orDefault (Json.getProperty "site" args) (JPrim (JsString "")) in
  let counted := (checkRateLimit (clock env) (requestCount w)).2 in
  let web := Json.callToolHandler env "google_web_search" args w in
  let image := Json.callToolHandler env "google_image_search" args w in
  Json.wellFormed countValue -> Json.wellFormed startValue -> Json.wellFormed siteValue ->
  (Json.isGoogleWebSearchArgs args = true /\ Json.isGoogleImageSearchArgs args = true) /\
  (forall k v, k <> "query" ->
     Json.isGoogleWebSearchArgs (JObject (<[k:=v]> fields)) = true /\
     Json.isGoogleImageSearchArgs (JObject (<[k:=v]> fields)) = true) /\
  (requestCount web.2 = counted /\ requestCount image.2 = counted) /\
  ((checkRateLimit (clock env) (requestCount w)).1 = Normal tt ->
   daily counted = daily (resetWindows (clock env) (requestCount w)) + 1 /\
   (if Json.sendableWeb query countValue startValue siteValue
    then exists p,
           sent web.2 = p :: sent w /\
           Json.Math_min_10_toString countValue = Normal (num p) /\
           Json.toString_method startValue = Normal (start p)
    else exists e,
           web = (errorResult e, {| requestCount := counted; sent := sent w |})) /\
   (if Json.sendableImage countValue startValue
    then exists p,
           sent image.2 = p :: sent w /\
           q p = query /\
           Json.Math_min_10_toString countValue = Normal (num p) /\
           Json.toString_method startValue = Normal (start p)
    else exists e,
           image = (errorResult e, {| requestCount := counted; sent := sent w |}))).
Proof.
  intros Hq args countValue startValue siteValue counted web image _ _ _.
  split; [exact (Json_guards_accept fields query Hq)|].
  split; [intros k v Hk; apply (Json_guards_accept _ query); by rewrite lookup_insert_ne|].
  split.
  - subst web image.
    rewrite (Json_callToolHandler_web env fields query w Hq),
      (Json_callToolHandler_image env fields query w Hq), !wrap_world.
    split; [apply Json_performWebSearch_counters | apply Json_performImageSearch_counters].
  - intros Hadmit. split; [|split].
    + subst counted. apply checkRateLimit_admits_iff in Hadmit as [Hs Hd].
      by rewrite checkRateLimit_admits.
    + subst web. rewrite (Json_web_admitted env fields query w Hq Hadmit).
      rewrite <- (Json_webRequest_returns env).
      fold args. change (Json.countOf args) with countValue.
      change (Json.startOf args) with startValue.
      change (Json.siteOf args) with siteValue.
      destruct (Json.webRequest env _ countValue startValue siteValue) as [p|e] eqn:Hreq;
        simpl returned; cbn iota.
      * apply Json_webRequest_fields in Hreq as (_ & _ & _ & Hnum & Hst & _).
        exists p. by rewrite wrap_world.
      * by exists e.
    + subst image. rewrite (Json_image_admitted env fields query w Hq Hadmit).
      rewrite <- (Json_imageRequest_returns env query).
      fold args. change (Json.countOf args) with countValue.
      change (Json.startOf args) with startValue.
      destruct (Json.imageRequest env _ countValue startValue) as [p|e] eqn:Hreq;
        simpl returned; cbn iota.
      * apply Json_imageRequest_fields in Hreq as (_ & _ & Hquery & Hnum & Hst & _).
        exists p. rewrite wrap_world. simpl in Hquery. by injection Hquery as <-.
      * by exists e.
Qed.

End JsonClaims.

(** The range theorem at a count of 50 and a start of 0: both guards
    accept, and the request says [num] 10 and [start] 0. *)
Lemma ranges_never_checked_witness :
  Json.isGoogleWebSearchArgs (JObject bagIntegers) = true /\
  exists p,
    sent (@Json.callToolHandler exampleRuntime exampleDoubles
            (exampleEnv (mkClock 0 0) None)
            "google_web_search" (JObject bagIntegers) (freshWorld (mkClock 0 0))).2
      = [p] /\
    num p = "10" /\ start p = "0".
Proof.
  destruct (@ranges_never_checked exampleRuntime exampleDoubles
              (exampleEnv (mkClock 0 0) None) "google_web_search" bagIntegers "foo"
              (freshWorld (mkClock 0 0)))
    as (Hweb & _ & _ & Hsent).
  - by left.
  - reflexivity.
  - split; [exact Hweb|].
    destruct Hsent as (p & Hp & Hnum & _ & Hstart & _).
    + vm_compute. split; reflexivity.
    + vm_compute. split; reflexivity.
    + reflexivity.
    + reflexivity.
    + exists p. split; [exact Hp|].
      split; [apply (Hnum 50) | apply (Hstart 0)]; reflexivity.
Defined.

(** The flow theorem at an array for [start]: the image request carries
    the array's elements joined by a comma. *)
Lemma unchecked_values_reach_upstream_witness :
  exists p,
    sent (@Json.callToolHandler exampleRuntime exampleDoubles
            (exampleEnv (mkClock 0 0) None)
            "google_image_search" (JObject bagArrayStart) (freshWorld (mkClock 0 0))).2
      = [p] /\
    q p = "foo" /\ num p = "5" /\ start p = "1,2".
Proof.
  destruct (@unchecked_values_reach_upstream exampleRuntime exampleDoubles
              (exampleEnv (mkClock 0 0) None) bagArrayStart "foo"
              (freshWorld (mkClock 0 0)))
    as (_ & _ & _ & Hflow).
  - reflexivity.
  - vm_compute. split; reflexivity.
  - vm_compute. repeat split; reflexivity.
  - exact I.
  - destruct (Hflow eq_refl) as (_ & _ & Himage).
    change (Json.sendableImage _ _) with true in Himage. cbv iota in Himage.
    destruct Himage as (p & Hp & Hq & Hnum & Hstart).
    exists p. split; [exact Hp | split; [exact Hq | split]].
    + vm_compute in Hnum. injection Hnum as Hnum. symmetry. exact Hnum.
    + vm_compute in Hstart. injection Hstart as Hstart. symmetry. exact Hstart.
Defined.

(** What an object with a [toString] property for [start] does: the
    call passes the guard and consumes quota, [start.toString()] throws
    and nothing is sent. *)
Example toString_object_never_sent :
  Json.isGoogleWebSearchArgs (JObject bagToStringObject) = true /\
  @Json.callToolHandler exampleRuntime exampleDoubles (exampleEnv (mkClock 0 0) None)
    "google_web_search" (JObject bagToStringObject) (freshWorld (mkClock 0 0))
  = ({| text := "Error: start.toString is not a function"; isError := true |},
     {| requestCount := {| daily := 1; second := 1;
                           lastSecondReset := 0; lastDayReset := 0 |};
        sent := [] |}).
Proof. split; vm_compute; reflexivity. Qed.

(** An array is converted rather than refused: its elements reach the
    request joined by a comma. *)
Example array_start_sent :
  sent (@Json.callToolHandler exampleRuntime exampleDoubles (exampleEnv (mkClock 0 0) None)
          "google_image_search" (JObject bagArrayStart) (freshWorld (mkClock 0 0))).2
  = [ {| key := "k"; cx := "c"; q := "foo"; num := "5";
         start := "1,2"; searchType := Some "image" |} ].
Proof. vm_compute. reflexivity. Qed.

(** A fraction is not refused either: a count of 2.5 goes upstream as
    it is. *)
Example fraction_count_sent :
  sent (@Json.callToolHandler exampleRuntime exampleDoubles (exampleEnv (mkClock 0 0) None)
          "google_web_search" (JObject bagFraction) (freshWorld (mkClock 0 0))).2
  = [ {| key := "k"; cx := "c"; q := "foo"; num := "2.5";
         start := "1"; searchType := None |} ].
Proof. vm_compute. reflexivity. Qed.
